(** * Al Adhwa lesson-plan generator: the browser-side form controller

    A shallow embedding of [static/js/app.js]: the three event handlers the
    script registers on [DOMContentLoaded] (date change, form submit,
    "Generate Another" click), written in a small state-and-exception monad
    over the part of the page the script reads and writes. *)

From Stdlib Require Import String Ascii ZArith.
From stdpp Require Import base option list gmap strings pretty.

Local Open Scope string_scope.
Local Open Scope list_scope.
Local Set Warnings "-register-all".

(** ** JavaScript values

    Response bodies come from [response.json()], so they are JSON values;
    [JUndefined] is what reading an absent property gives.  JSON numbers are
    IEEE doubles: the script only tests them for truthiness and converts them
    to strings, so both observations are an interface of the number type. *)

Class NumberOps (number : Type) := {
  number_truthy : number -> bool;
  number_to_string : number -> string
}.

Inductive jsval (number : Type) : Type :=
  | JUndefined
  | JNull
  | JBool (b : bool)
  | JNum (n : number)
  | JStr (s : string)
  | JArr (items : list (jsval number))
  | JObj (fields : list (string * jsval number)).

Arguments JUndefined {number}.
Arguments JNull {number}.
Arguments JBool {number} b.
Arguments JNum {number} n.
Arguments JStr {number} s.
Arguments JArr {number} items.
Arguments JObj {number} fields.

(** An [Error] object, as far as the script looks at it: [error.message]. *)
Record js_error := { err_name : string; err_message : string }.

(** A statement or an expression completes with a value or throws. *)
Inductive outcome (A : Type) :=
  | Completed (a : A)
  | Threw (e : js_error).
Arguments Completed {A} a.
Arguments Threw {A} e.

Definition nl : string := String (ascii_of_nat 10) "".

(** The [TypeError] of converting an object that has no usable [toString]
    or [valueOf] to a string (V8's wording). *)
Definition unconvertible : js_error :=
  {| err_name := "TypeError";
     err_message := "Cannot convert object to primitive value" |}.

Section Values.
Context {number : Type} `{NumberOps number}.

(** [ToBoolean]: what [if (v)], [!v] and [v || w] test. *)
Definition truthy (v : jsval number) : bool :=
  match v with
  | JUndefined | JNull => false
  | JBool b => b
  | JNum n => number_truthy n
  | JStr s => negb (String.eqb s "")
  | JArr _ | JObj _ => true
  end.

(** The own property [k] of an object: the last binding wins, in an object
    literal and in [JSON.parse] alike. *)
Fixpoint field (k : string) (fields : list (string * jsval number)) : option (jsval number) :=
  match fields with
  | [] => None
  | (k', v) :: rest =>
      match field k rest with
      | Some w => Some w
      | None => if String.eqb k k' then Some v else None
      end
  end.

(** [ToString], as the [value] and [href] setters and [new Error(v)] apply
    it.  An array is joined with commas, [null] and [undefined] elements
    giving the empty string.  A parsed object inherits [toString] and gives
    "[object Object]", unless it has a key [toString] of its own: that
    value is not callable, the inherited [valueOf] returns the object, and
    the conversion throws a [TypeError].  The same happens for such an
    object inside an array. *)
Fixpoint to_string (v : jsval number) : outcome string :=
  match v with
  | JUndefined => Completed "undefined"
  | JNull => Completed "null"
  | JBool true => Completed "true"
  | JBool false => Completed "false"
  | JNum n => Completed (number_to_string n)
  | JStr s => Completed s
  | JArr items =>
      (fix join (l : list (jsval number)) : outcome string :=
         match l with
         | [] => Completed ""
         | x :: r =>
             match (match x with
                    | JUndefined | JNull => Completed ""
                    | _ => to_string x
                    end) with
             | Threw e => Threw e
             | Completed here =>
                 match r with
                 | [] => Completed here
                 | _ :: _ =>
                     match join r with
                     | Threw e => Threw e
                     | Completed rest => Completed (here +:+ "," +:+ rest)
                     end
                 end
             end
         end) items
  | JObj fields =>
      match field "toString" fields with
      | Some _ => Threw unconvertible
      | None => Completed "[object Object]"
      end
  end.

(** [v.k] for a [v] that is neither [null] nor [undefined].  The script reads
    only [status], [message], [download_url], [value], [error] and the eleven
    payload names, none of which a prototype defines: a primitive or an array
    gives [undefined]. *)
Definition prop (v : jsval number) (k : string) : jsval number :=
  match v with
  | JObj fields => default JUndefined (field k fields)
  | _ => JUndefined
  end.

(** [v === 'text'] *)
Definition is_string (v : jsval number) (text : string) : bool :=
  match v with
  | JStr s => String.eqb s text
  | _ => false
  end.

(** [a || b] *)
Definition js_or (a b : jsval number) : jsval number :=
  if truthy a then a else b.

End Values.

(** ** The page

    The script holds eight elements.  [#lessonForm], [#loading] and [#result]
    are panels whose class list it toggles between hidden and shown;
    [#progress-text] and [#downloadBtn] receive a text and an [href];
    [#date] and [#value] are inputs, found by id among the page's controls.
    The form itself is seen through [new FormData(form)] and [form.reset()]:
    every control carries its name, its value and whether it currently
    contributes an entry (a checked box, a selected option, any text input),
    together with the defaults a reset restores. *)

Record control := {
  ctl_id : string;
  ctl_name : string;
  ctl_in_form : bool;
  ctl_value : string;
  ctl_on : bool;
  ctl_default_value : string;
  ctl_default_on : bool
}.

Inductive panel := LessonForm | LoadingDiv | ResultDiv.

(** A call of [fetch(url, {method, headers, body: JSON.stringify(v)})]; the
    body is kept as the value [v] that is serialised. *)
Record request (number : Type) := {
  req_url : string;
  req_method : string;
  req_headers : list (string * string);
  req_body : jsval number
}.
Arguments req_url {number} _.
Arguments req_method {number} _.
Arguments req_headers {number} _.
Arguments req_body {number} _.

(** What the network answers.  [fetch] rejects on a network failure; a
    response has its [ok] flag, and [response.json()] either parses the body
    or rejects with a [SyntaxError]. *)
Inductive json_outcome (number : Type) :=
  | JsonOk (body : jsval number)
  | JsonFails (e : js_error).
Arguments JsonOk {number} body.
Arguments JsonFails {number} e.

Record response (number : Type) := {
  resp_ok : bool;
  resp_json : json_outcome number
}.
Arguments resp_ok {number} _.
Arguments resp_json {number} _.

Inductive fetch_outcome (number : Type) :=
  | Rejected (e : js_error)
  | Resolved (r : response number).
Arguments Rejected {number} e.
Arguments Resolved {number} r.

(** One argument of a [console.error] call. *)
Inductive console_arg (number : Type) :=
  | LogText (s : string)
  | LogValue (v : jsval number)
  | LogError (e : js_error).
Arguments LogText {number} s.
Arguments LogValue {number} v.
Arguments LogError {number} e.

(** Calls that leave no state behind in this model. *)
Inductive ui_call :=
  | PreventDefault
  | ScrollIntoView (p : panel)
  | ScrollToTop.

Record page (number : Type) := {
  form_hidden : bool;
  loading_hidden : bool;
  result_hidden : bool;
  progress_text : string;
  download_href : string;
  controls : list control;
  (** the active intervals of the submit handler, each with the
      [stepIndex] of its callback's closure *)
  timers : gmap nat nat;
  next_timer : nat;
  alerts : list string;
  console : list (list (console_arg number));
  requests : list (request number);
  ui_calls : list ui_call
}.
Arguments form_hidden {number} _.
Arguments loading_hidden {number} _.
Arguments result_hidden {number} _.
Arguments progress_text {number} _.
Arguments download_href {number} _.
Arguments controls {number} _.
Arguments timers {number} _.
Arguments next_timer {number} _.
Arguments alerts {number} _.
Arguments console {number} _.
Arguments requests {number} _.
Arguments ui_calls {number} _.

Section Page.
Context {number : Type}.

Definition set_hidden (p : panel) (b : bool) (s : page number) : page number :=
  {| form_hidden := match p with LessonForm => b | _ => form_hidden s end;
     loading_hidden := match p with LoadingDiv => b | _ => loading_hidden s end;
     result_hidden := match p with ResultDiv => b | _ => result_hidden s end;
     progress_text := progress_text s; download_href := download_href s;
     controls := controls s; timers := timers s; next_timer := next_timer s;
     alerts := alerts s; console := console s; requests := requests s;
     ui_calls := ui_calls s |}.

Definition set_progress_text (t : string) (s : page number) : page number :=
  {| form_hidden := form_hidden s; loading_hidden := loading_hidden s;
     result_hidden := result_hidden s;
     progress_text := t; download_href := download_href s;
     controls := controls s; timers := timers s; next_timer := next_timer s;
     alerts := alerts s; console := console s; requests := requests s;
     ui_calls := ui_calls s |}.

Definition set_download_href (h : string) (s : page number) : page number :=
  {| form_hidden := form_hidden s; loading_hidden := loading_hidden s;
     result_hidden := result_hidden s;
     progress_text := progress_text s; download_href := h;
     controls := controls s; timers := timers s; next_timer := next_timer s;
     alerts := alerts s; console := console s; requests := requests s;
     ui_calls := ui_calls s |}.

Definition set_controls (cs : list control) (s : page number) : page number :=
  {| form_hidden := form_hidden s; loading_hidden := loading_hidden s;
     result_hidden := result_hidden s;
     progress_text := progress_text s; download_href := download_href s;
     controls := cs; timers := timers s; next_timer := next_timer s;
     alerts := alerts s; console := console s; requests := requests s;
     ui_calls := ui_calls s |}.

Definition set_timers (ts : gmap nat nat) (next : nat) (s : page number) : page number :=
  {| form_hidden := form_hidden s; loading_hidden := loading_hidden s;
     result_hidden := result_hidden s;
     progress_text := progress_text s; download_href := download_href s;
     controls := controls s; timers := ts; next_timer := next;
     alerts := alerts s; console := console s; requests := requests s;
     ui_calls := ui_calls s |}.

Definition push_alert (msg : string) (s : page number) : page number :=
  {| form_hidden := form_hidden s; loading_hidden := loading_hidden s;
     result_hidden := result_hidden s;
     progress_text := progress_text s; download_href := download_href s;
     controls := controls s; timers := timers s; next_timer := next_timer s;
     alerts := alerts s ++ [msg]; console := console s; requests := requests s;
     ui_calls := ui_calls s |}.

Definition push_console (args : list (console_arg number)) (s : page number) : page number :=
  {| form_hidden := form_hidden s; loading_hidden := loading_hidden s;
     result_hidden := result_hidden s;
     progress_text := progress_text s; download_href := download_href s;
     controls := controls s; timers := timers s; next_timer := next_timer s;
     alerts := alerts s; console := console s ++ [args]; requests := requests s;
     ui_calls := ui_calls s |}.

Definition push_request (r : request number) (s : page number) : page number :=
  {| form_hidden := form_hidden s; loading_hidden := loading_hidden s;
     result_hidden := result_hidden s;
     progress_text := progress_text s; download_href := download_href s;
     controls := controls s; timers := timers s; next_timer := next_timer s;
     alerts := alerts s; console := console s; requests := requests s ++ [r];
     ui_calls := ui_calls s |}.

Definition push_ui_call (c : ui_call) (s : page number) : page number :=
  {| form_hidden := form_hidden s; loading_hidden := loading_hidden s;
     result_hidden := result_hidden s;
     progress_text := progress_text s; download_href := download_href s;
     controls := controls s; timers := timers s; next_timer := next_timer s;
     alerts := alerts s; console := console s; requests := requests s;
     ui_calls := ui_calls s ++ [c] |}.

Definition hidden (p : panel) (s : page number) : bool :=
  match p with
  | LessonForm => form_hidden s
  | LoadingDiv => loading_hidden s
  | ResultDiv => result_hidden s
  end.

(** *** Controls *)

(** [document.getElementById(id)] among the controls: the first in tree
    order. *)
Fixpoint find_control (id : string) (cs : list control) : option control :=
  match cs with
  | [] => None
  | c :: rest => if String.eqb (ctl_id c) id then Some c else find_control id rest
  end.

Definition with_value (v : string) (c : control) : control :=
  {| ctl_id := ctl_id c; ctl_name := ctl_name c; ctl_in_form := ctl_in_form c;
     ctl_value := v; ctl_on := ctl_on c;
     ctl_default_value := ctl_default_value c; ctl_default_on := ctl_default_on c |}.

(** [el.value = v] on the element [find_control] returns. *)
Fixpoint assign_value (id v : string) (cs : list control) : list control :=
  match cs with
  | [] => []
  | c :: rest =>
      if String.eqb (ctl_id c) id then with_value v c :: rest
      else c :: assign_value id v rest
  end.

(** The reset algorithm on one control: back to the default value and the
    default checkedness or selectedness. *)
Definition reset_control (c : control) : control :=
  if ctl_in_form c then
    {| ctl_id := ctl_id c; ctl_name := ctl_name c; ctl_in_form := true;
       ctl_value := ctl_default_value c; ctl_on := ctl_default_on c;
       ctl_default_value := ctl_default_value c;
       ctl_default_on := ctl_default_on c |}
  else c.

(** The entry list of [new FormData(form)]: in tree order, one entry for
    each named control of the form that is on. *)
Definition form_entries (cs : list control) : list (string * string) :=
  omap (fun c =>
          if ctl_in_form c && ctl_on c && negb (String.eqb (ctl_name c) "")
          then Some (ctl_name c, ctl_value c) else None) cs.

End Page.

(** ** Handlers as computations

    A handler runs against the page and either completes or throws; [try
    ... catch] is [try_catch].  An [await] is a point where the environment
    decides: the settled outcome of the request is an argument of the
    handler, and so is the number of times the progress interval fires while
    the submit request is in flight. *)

Definition M (number A : Type) : Type := page number -> outcome A * page number.

Section Monad.
Context {number : Type}.

Definition ret {A} (a : A) : M number A := fun s => (Completed a, s).

Definition bind {A B} (m : M number A) (k : A -> M number B) : M number B :=
  fun s =>
    match m s with
    | (Completed a, s') => k a s'
    | (Threw e, s') => (Threw e, s')
    end.

Definition throw {A} (e : js_error) : M number A := fun s => (Threw e, s).

Definition try_catch {A} (body : M number A) (handler : js_error -> M number A) : M number A :=
  fun s =>
    match body s with
    | (Completed a, s') => (Completed a, s')
    | (Threw e, s') => handler e s'
    end.

(** A statement that only changes the page. *)
Definition effect (f : page number -> page number) : M number unit :=
  fun s => (Completed tt, f s).

Definition read {A} (f : page number -> A) : M number A :=
  fun s => (Completed (f s), s).

(** The page a handler leaves behind. *)
Definition exec {A} (m : M number A) (s : page number) : page number := snd (m s).

End Monad.

Declare Scope js_scope.
Delimit Scope js_scope with js.
Notation "'let*' x := m 'in' k" := (bind m (fun x => k))
  (at level 10, x name, m at level 100, k at level 200) : js_scope.
Notation "m ;; k" := (bind m (fun _ => k))
  (at level 100, k at level 200, right associativity) : js_scope.

Local Open Scope js_scope.

(** ** Browser operations the script calls *)

Section Browser.
Context {number : Type} `{NumberOps number}.

(** [el.classList.add('hidden')] and [el.classList.remove('hidden')] *)
Definition classList_add_hidden (p : panel) : M number unit := effect (set_hidden p true).
Definition classList_remove_hidden (p : panel) : M number unit := effect (set_hidden p false).

Definition alert (msg : string) : M number unit := effect (push_alert msg).

Definition console_error (args : list (console_arg number)) : M number unit :=
  effect (push_console args).

Definition ui (c : ui_call) : M number unit := effect (push_ui_call c).

(** The [TypeError] of reading or writing a property of [null] or
    [undefined] (V8's wording; nothing below depends on the text). *)
Definition null_access (what k : string) : js_error :=
  {| err_name := "TypeError";
     err_message := "Cannot " +:+ what +:+ " properties of null (" +:+
                    (if String.eqb what "read" then "reading" else "setting") +:+
                    " '" +:+ k +:+ "')" |}.

(** [v.k] *)
Definition get_prop (v : jsval number) (k : string) : M number (jsval number) :=
  match v with
  | JNull | JUndefined => throw (null_access "read" k)
  | _ => ret (prop v k)
  end.

(** An expression's outcome, as a step of a handler. *)
Definition evaluate {A} (o : outcome A) : M number A :=
  match o with
  | Completed a => ret a
  | Threw e => throw e
  end.

(** [new Error(v)]: the message is [ToString(v)], and the conversion may
    throw instead. *)
Definition new_Error (v : jsval number) : M number js_error :=
  let* message := evaluate (to_string v) in
  ret {| err_name := "Error"; err_message := message |}.

(** The [value] of the input with the given id, for the element whose
    listener is running (it exists, or the listener would not). *)
Definition input_value (id : string) : M number string :=
  read (fun s => default "" (ctl_value <$> find_control id (controls s))).

(** [input.value = v] for a string [v], where [input] is what
    [getElementById(id)] returned when the script started: a [TypeError]
    when there is no such element. *)
Definition set_input_value (id v : string) : M number unit :=
  fun s =>
    match find_control id (controls s) with
    | Some _ => (Completed tt, set_controls (assign_value id v (controls s)) s)
    | None => (Threw (null_access "set" "value"), s)
    end.

(** [input.value = v] for a value [v] of the script: the reference is
    checked first, then the setter converts [v] to a string, which may
    throw. *)
Definition assign_input_value (id : string) (v : jsval number) : M number unit :=
  fun s =>
    match find_control id (controls s) with
    | Some _ =>
        match to_string v with
        | Completed text =>
            (Completed tt, set_controls (assign_value id text (controls s)) s)
        | Threw e => (Threw e, s)
        end
    | None => (Threw (null_access "set" "value"), s)
    end.

(** [downloadBtn.href = v]: the setter converts [v] to a string, which may
    throw. *)
Definition assign_download_href (v : jsval number) : M number unit :=
  let* href := evaluate (to_string v) in
  effect (set_download_href href).

(** [new FormData(form)] *)
Definition new_FormData : M number (list (string * string)) :=
  read (fun s => form_entries (controls s)).

(** [form.reset()] *)
Definition form_reset : M number unit :=
  effect (fun s => set_controls (reset_control <$> controls s) s).

(** [formData.get(name)]: the first entry of that name, or [null]. *)
Fixpoint formData_get (fd : list (string * string)) (name : string) : jsval number :=
  match fd with
  | [] => JNull
  | (k, v) :: rest => if String.eqb k name then JStr v else formData_get rest name
  end.

(** [formData.getAll(name)]: every entry of that name, in order. *)
Definition formData_getAll (fd : list (string * string)) (name : string) : jsval number :=
  JArr (omap (fun e => if String.eqb (fst e) name then Some (JStr (snd e)) else None) fd).

(** The request leaves: [fetch] has been called. *)
Definition fetch_send (url : string) (body : jsval number) : M number unit :=
  effect (push_request {| req_url := url; req_method := "POST";
                          req_headers := [("Content-Type", "application/json")];
                          req_body := body |}).

(** The request settles: the [await] resumes with a response or throws the
    rejection. *)
Definition fetch_settle (net : fetch_outcome number) : M number (response number) :=
  match net with
  | Rejected e => throw e
  | Resolved r => ret r
  end.

(** [await response.json()] *)
Definition response_json (r : response number) : M number (jsval number) :=
  match resp_json r with
  | JsonOk body => ret body
  | JsonFails e => throw e
  end.

(** *** The progress interval *)

Definition progressSteps : list string :=
  [ "🔍 Analyzing lesson parameters...";
    "🎯 Generating HOT objectives...";
    "✨ Creating engaging starter activity...";
    "📚 Developing differentiated tasks...";
    "🇦🇪 Integrating UAE/ADEK framework...";
    "📝 Creating worksheets and rubrics...";
    "🎨 Building PowerPoint presentation...";
    "📦 Packaging all files..." ].

(** [setInterval(callback, 15000)] with [stepIndex = 0] in the closure:
    a fresh id. *)
Definition setInterval : M number nat :=
  fun s =>
    let id := next_timer s in
    (Completed id, set_timers (<[id := 0]> (timers s)) (S id) s).

Definition clearInterval (id : nat) : M number unit :=
  effect (fun s => set_timers (delete id (timers s)) (next_timer s) s).

(** One run of the interval's callback; a cleared interval no longer fires. *)
Definition interval_fires (id : nat) (s : page number) : page number :=
  match timers s !! id with
  | None => s
  | Some stepIndex =>
      if decide (stepIndex < length progressSteps) then
        set_timers (<[id := S stepIndex]> (timers s)) (next_timer s)
          (set_progress_text (default "" (progressSteps !! stepIndex)) s)
      else
        set_progress_text "⏳ Finalizing your package..." s
  end.

(** [n] periods of 15 seconds pass. *)
Definition elapse (id : nat) (n : nat) : M number unit :=
  effect (fun s => Nat.iter n (interval_fires id) s).

End Browser.

(** ** The three handlers *)

Section Handlers.
Context {number : Type} `{NumberOps number}.

(** The [try] block of the date-change handler. *)
Definition date_change_try (selectedDate : string) (net : fetch_outcome number) : M number unit :=
  fetch_send "/api/get-month-value" (JObj [("date", JStr selectedDate)]) ;;
  let* response := fetch_settle net in
  let* data := response_json response in
  let* value := get_prop data "value" in
  if truthy value then
    assign_input_value "value" value
  else
    let* error := get_prop data "error" in
    if truthy error then
      console_error [LogText "Error fetching month value:"; LogValue error]
    else ret tt.

(** Its [catch (error)] block. *)
Definition date_change_catch (error : js_error) : M number unit :=
  console_error [LogText "Error:"; LogError error].

(** [dateInput.addEventListener('change', async function() {...})] *)
Definition date_change (net : fetch_outcome number) : M number unit :=
  let* selectedDate := input_value "date" in
  if String.eqb selectedDate "" then ret tt
  else try_catch (date_change_try selectedDate net) date_change_catch.

(** The object literal [data] of the submit handler. *)
Definition payload (formData : list (string * string)) : jsval number :=
  JObj [ ("date", formData_get formData "date");
         ("semester", formData_get formData "semester");
         ("grade", formData_get formData "grade");
         ("subject", formData_get formData "subject");
         ("topic", formData_get formData "topic");
         ("period", formData_get formData "period");
         ("value", formData_get formData "value");
         ("standards", formData_getAll formData "standards");
         ("digital_platform", formData_get formData "digital_platform");
         ("gifted_talented", JBool (is_string (formData_get (number := number) formData "gifted_talented") "on"));
         ("ppt_style", formData_get formData "ppt_style") ].

(** [!data.date || !data.semester || !data.grade || !data.subject ||
    !data.topic || !data.period] *)
Definition required_missing (data : jsval number) : bool :=
  negb (truthy (prop data "date")) || negb (truthy (prop data "semester")) ||
  negb (truthy (prop data "grade")) || negb (truthy (prop data "subject")) ||
  negb (truthy (prop data "topic")) || negb (truthy (prop data "period")).

Definition generation_alert (message : string) : string :=
  "Error generating lesson plan: " +:+ message +:+ nl +:+ nl +:+
  "Please try again or contact support.".

(** The [try] block from the settled [fetch] on. *)
Definition submit_try (progressInterval : nat) (net : fetch_outcome number) : M number unit :=
  let* response := fetch_settle net in
  clearInterval progressInterval ;;
  let* result := response_json response in
  let* succeeded :=
    (if resp_ok response then
       let* status := get_prop result "status" in ret (is_string status "success")
     else ret false) in
  if succeeded then
    classList_add_hidden LoadingDiv ;;
    classList_remove_hidden ResultDiv ;;
    let* download_url := get_prop result "download_url" in
    assign_download_href download_url ;;
    ui (ScrollIntoView ResultDiv)
  else
    let* message := get_prop result "message" in
    let* error := new_Error (js_or message (JStr "Failed to generate lesson plan")) in
    throw error.

(** The [catch (error)] block. *)
Definition submit_catch (progressInterval : nat) (error : js_error) : M number unit :=
  clearInterval progressInterval ;;
  alert (generation_alert (err_message error)) ;;
  classList_add_hidden LoadingDiv ;;
  classList_remove_hidden LessonForm ;;
  console_error [LogText "Generation error:"; LogError error].

(** The handler once the request has settled. *)
Definition submit_settled (progressInterval : nat) (net : fetch_outcome number) : M number unit :=
  try_catch (submit_try progressInterval net) (submit_catch progressInterval).

(** The handler up to its first [await]: it returns at the validation, or
    leaves with the request sent and the id of the interval it started. *)
Definition submit_begin : M number (option nat) :=
  ui PreventDefault ;;
  let* formData := new_FormData in
  let data := payload formData in
  if required_missing data then
    alert "Please fill in all required fields marked with *" ;;
    ret None
  else
    classList_add_hidden LessonForm ;;
    classList_remove_hidden LoadingDiv ;;
    classList_add_hidden ResultDiv ;;
    let* progressInterval := setInterval in
    fetch_send "/api/generate-lesson-plan" data ;;
    ret (Some progressInterval).

(** [form.addEventListener('submit', async function(e) {...})]; the interval
    fires [ticks] times before the request settles with [net]. *)
Definition submit (ticks : nat) (net : fetch_outcome number) : M number unit :=
  let* started := submit_begin in
  match started with
  | None => ret tt
  | Some progressInterval =>
      elapse progressInterval ticks ;;
      submit_settled progressInterval net
  end.

(** [newPlanBtn.addEventListener('click', function() {...})] *)
Definition new_plan_click : M number unit :=
  classList_add_hidden ResultDiv ;;
  classList_remove_hidden LessonForm ;;
  form_reset ;;
  set_input_value "value" "" ;;
  ui ScrollToTop.

(** The end of the [DOMContentLoaded] listener: today's date is written
    into the date input and a [change] event is dispatched on it. *)
Definition on_load (today : string) (net : fetch_outcome number) : M number unit :=
  set_input_value "date" today ;;
  date_change net.

End Handlers.

(** ** A concrete page to run the handlers on *)

(** Integers as numbers: zero is falsy, and an integer prints in decimal. *)
#[export] Instance Z_numbers : NumberOps Z := {
  number_truthy z := negb (Z.eqb z 0);
  number_to_string z := pretty z
}.

Definition text_input (id name value : string) : control :=
  {| ctl_id := id; ctl_name := name; ctl_in_form := true;
     ctl_value := value; ctl_on := true;
     ctl_default_value := ""; ctl_default_on := true |}.

Definition checkbox (name value : string) (checked : bool) : control :=
  {| ctl_id := ""; ctl_name := name; ctl_in_form := true;
     ctl_value := value; ctl_on := checked;
     ctl_default_value := value; ctl_default_on := false |}.

(** The page as it is served: the form shown, the other two panels hidden. *)
Definition page_with (cs : list control) : page Z :=
  {| form_hidden := false; loading_hidden := true; result_hidden := true;
     progress_text := "Initializing..."; download_href := "#";
     controls := cs; timers := ∅; next_timer := 1;
     alerts := []; console := []; requests := []; ui_calls := [] |}.

Definition filled_controls : list control :=
  [ text_input "date" "date" "2025-03-10";
    text_input "semester" "semester" "2";
    text_input "grade" "grade" "7";
    text_input "subject" "subject" "Science";
    text_input "topic" "topic" "Photosynthesis";
    text_input "period" "period" "3";
    text_input "value" "value" "Tolerance";
    checkbox "standards" "NGSS-1" true;
    checkbox "standards" "NGSS-2" false;
    checkbox "standards" "NGSS-3" true;
    text_input "digital_platform" "digital_platform" "Kahoot";
    checkbox "gifted_talented" "on" true;
    text_input "ppt_style" "ppt_style" "modern" ].

Definition filled_page : page Z := page_with filled_controls.

(** The same form with the topic left empty. *)
Definition topicless_page : page Z :=
  page_with (assign_value "topic" "" filled_controls).

(** The page after a successful generation. *)
Definition success_body : jsval Z :=
  JObj [("status", JStr "success"); ("download_url", JStr "/download/plan.zip")].

Definition success_net : fetch_outcome Z :=
  Resolved {| resp_ok := true; resp_json := JsonOk success_body |}.

(** An answer of /api/get-month-value. *)
Definition month_value (data : jsval Z) : response Z :=
  {| resp_ok := true; resp_json := JsonOk data |}.

(** The form with the date input emptied. *)
Definition dateless_page : page Z :=
  page_with (assign_value "date" "" filled_controls).

Definition network_down : fetch_outcome Z :=
  Rejected {| err_name := "TypeError"; err_message := "Failed to fetch" |}.

Definition server_error (message : string) : fetch_outcome Z :=
  Resolved {| resp_ok := false;
              resp_json := JsonOk (JObj [("status", JStr "error"); ("message", JStr message)]) |}.

(** An object with a key [toString] of its own, which has no string form. *)
Definition stringless : jsval Z := JObj [("toString", JNum 1%Z)].

(** A 'success' answer whose [download_url] is such an object. *)
Definition stringless_url_net : fetch_outcome Z :=
  Resolved {| resp_ok := true;
              resp_json := JsonOk (JObj [("status", JStr "success");
                                         ("download_url", stringless)]) |}.

(** A page that has no [#value] input: [getElementById('value')] gave
    [null] when the script started. *)
Definition valueless_page : page Z :=
  page_with (filter (fun c => ctl_id c <> "value") filled_controls).

(** ** What the specification talks about *)

Section Vocabulary.
Context {number : Type} `{NumberOps number}.

(** The six names the submit handler requires. *)
Definition required_fields : list string :=
  ["date"; "semester"; "grade"; "subject"; "topic"; "period"].

(** The values of all entries of that name, in the form's order. *)
Definition entry_values (fd : list (string * string)) (name : string) : list string :=
  snd <$> filter (fun e => fst e = name) fd.

(** The form has a non-empty first entry of that name. *)
Definition filled (fd : list (string * string)) (name : string) : Prop :=
  exists v, head (entry_values fd name) = Some v /\ v <> "".

(** The form has no entry of that name, or its first one is empty. *)
Definition unfilled (fd : list (string * string)) (name : string) : Prop :=
  head (entry_values fd name) = None \/ head (entry_values fd name) = Some "".

Definition post (url : string) (body : jsval number) : request number :=
  {| req_url := url; req_method := "POST";
     req_headers := [("Content-Type", "application/json")];
     req_body := body |}.

(** The request failed, in the words of the specification: a network error,
    a response that is not ok, or a body whose status is not 'success'. *)
Definition request_failed (net : fetch_outcome number) : Prop :=
  match net with
  | Rejected _ => True
  | Resolved r =>
      resp_ok r = false \/
      forall body, resp_json r = JsonOk body -> prop body "status" <> JStr "success"
  end.

(** The message the specification expects in the failure alert: the
    [message] of the response body, or the default one (also for a message
    that has no string form). *)
Definition body_or_default_message (net : fetch_outcome number) : string :=
  match net with
  | Resolved {| resp_json := JsonOk body |} =>
      match to_string (js_or (prop body "message") (JStr "Failed to generate lesson plan")) with
      | Completed message => message
      | Threw _ => "Failed to generate lesson plan"
      end
  | _ => "Failed to generate lesson plan"
  end.

(** The message of the error the submit handler catches when the request
    has failed. *)
Definition failure_message (net : fetch_outcome number) : string :=
  match net with
  | Rejected e => err_message e
  | Resolved r =>
      match resp_json r with
      | JsonFails e => err_message e
      | JsonOk (JNull | JUndefined) =>
          err_message (null_access "read" (if resp_ok r then "status" else "message"))
      | JsonOk body =>
          match to_string (js_or (prop body "message") (JStr "Failed to generate lesson plan")) with
          | Completed message => message
          | Threw e => err_message e
          end
      end
  end.

(** One more alert is on screen than before. *)
Definition alert_surfaced (before after : page number) : Prop :=
  exists msg, alerts after = alerts before ++ [msg].

(** The value of the input with that id, if the page has one. *)
Definition value_of (id : string) (s : page number) : option string :=
  ctl_value <$> find_control id (controls s).

(** What "Generate Another" does to one control: a control of the form is
    back at its defaults, a control outside the form is as it was; the
    value of [#value] is set apart, since the handler empties it afterwards. *)
Definition reset_to_defaults (before after : control) : Prop :=
  ctl_id after = ctl_id before /\ ctl_name after = ctl_name before /\
  ctl_in_form after = ctl_in_form before /\
  ctl_default_value after = ctl_default_value before /\
  ctl_default_on after = ctl_default_on before /\
  ctl_on after = (if ctl_in_form before then ctl_default_on before else ctl_on before) /\
  (ctl_id before <> "value" ->
   ctl_value after =
     if ctl_in_form before then ctl_default_value before else ctl_value before).

(** What the firing interval leaves alone. *)
Definition only_progress (id : nat) (s s' : page number) : Prop :=
  form_hidden s' = form_hidden s /\ loading_hidden s' = loading_hidden s /\
  result_hidden s' = result_hidden s /\ download_href s' = download_href s /\
  controls s' = controls s /\ next_timer s' = next_timer s /\
  alerts s' = alerts s /\ console s' = console s /\
  requests s' = requests s /\ ui_calls s' = ui_calls s /\
  forall j, j <> id -> timers s' !! j = timers s !! j.

(** The page while the submit request is in flight, after the interval has
    fired [ticks] times. *)
Definition in_flight (ticks : nat) (s : page number) : page number :=
  Nat.iter ticks (interval_fires (next_timer s)) (exec submit_begin s).

End Vocabulary.

(** ** Properties *)

Section Properties.
Context {number : Type} `{NumberOps number}.
#[local] Arguments to_string : simpl never.
Implicit Types (s : page number) (net : fetch_outcome number)
  (fd : list (string * string)) (cs : list control).

(** *** Form data and validation *)

Lemma formData_get_head fd name :
  formData_get (number := number) fd name =
  from_option JStr JNull (head (entry_values fd name)).
Proof.
  unfold entry_values. induction fd as [|[k v] fd IH]; simpl; [done|].
  rewrite filter_cons. simpl.
  destruct (String.eqb_spec k name) as [->|Hne].
  - by rewrite decide_True.
  - by rewrite decide_False.
Qed.

Lemma truthy_formData_get fd name :
  truthy (formData_get (number := number) fd name) = true <-> filled fd name.
Proof.
  rewrite formData_get_head. unfold filled.
  destruct (head (entry_values fd name)) as [v|]; simpl.
  - destruct (String.eqb_spec v ""); simpl; split; try done.
    + intros (w & [= <-] & Hw). done.
    + intros _. by exists v.
  - split; [done|]. by intros (w & [=] & _).
Qed.

Lemma falsy_formData_get fd name :
  truthy (formData_get (number := number) fd name) = false <-> unfilled fd name.
Proof.
  rewrite formData_get_head. unfold unfilled.
  destruct (head (entry_values fd name)) as [v|]; simpl.
  - destruct (String.eqb_spec v ""); simpl; split; try done.
    + subst. by right.
    + intros [[=]|[= ->]]. done.
  - split; [by left | done].
Qed.

Lemma required_missing_payload fd :
  required_missing (payload fd) =
  negb (forallb (fun name => truthy (formData_get (number := number) fd name))
          required_fields).
Proof.
  unfold required_missing, payload, prop. cbn.
  repeat (destruct (truthy (formData_get _ _)); cbn; try reflexivity).
Qed.

Lemma required_present_iff fd :
  required_missing (payload (number := number) fd) = false <->
  Forall (filled fd) required_fields.
Proof.
  rewrite required_missing_payload, negb_false_iff, forallb_forall, Forall_forall.
  split; intros Hall name Hin.
  - apply truthy_formData_get, Hall. by apply list_elem_of_In.
  - apply truthy_formData_get, Hall. by apply list_elem_of_In.
Qed.

Lemma required_missing_iff fd :
  required_missing (payload (number := number) fd) = true <->
  exists name, name ∈ required_fields /\ unfilled fd name.
Proof.
  rewrite required_missing_payload, negb_true_iff. split.
  - intros Hnot. apply not_true_iff_false in Hnot.
    rewrite forallb_forall in Hnot.
    destruct (decide (Forall (fun name =>
      truthy (formData_get (number := number) fd name) = true) required_fields))
      as [Hall|Hex].
    + exfalso. apply Hnot. intros name Hin.
      rewrite Forall_forall in Hall. apply Hall. by apply list_elem_of_In.
    + apply not_Forall_Exists in Hex; [|intros ?; apply _].
      apply Exists_exists in Hex as (name & Hin & Hf).
      exists name. split; [done|]. apply falsy_formData_get.
      by apply not_true_iff_false.
  - intros (name & Hin & Hun). apply not_true_iff_false.
    rewrite forallb_forall. intros Hall.
    apply falsy_formData_get in Hun.
    rewrite (Hall name) in Hun; [done|]. by apply list_elem_of_In.
Qed.

(** *** The submit handler, step by step *)

Local Ltac thrown :=
  eexists _, _; split; [reflexivity | split; [reflexivity | auto]].


Lemma submit_begin_missing s :
  required_missing (payload (number := number) (form_entries (controls s))) = true ->
  submit_begin s =
  (Completed None,
   push_alert "Please fill in all required fields marked with *"
     (push_ui_call PreventDefault s)).
Proof.
  intros Hmiss. unfold submit_begin, bind, ui, effect, new_FormData, read. simpl.
  rewrite Hmiss. reflexivity.
Qed.

Lemma submit_begin_present s :
  required_missing (payload (number := number) (form_entries (controls s))) = false ->
  submit_begin s =
  (Completed (Some (next_timer s)),
   push_request (post "/api/generate-lesson-plan" (payload (form_entries (controls s))))
     (set_timers (<[next_timer s := 0]> (timers s)) (S (next_timer s))
        (set_hidden ResultDiv true
           (set_hidden LoadingDiv false
              (set_hidden LessonForm true (push_ui_call PreventDefault s)))))).
Proof.
  intros Hpres. unfold submit_begin, bind, ui, effect, new_FormData, read. simpl.
  rewrite Hpres. reflexivity.
Qed.

Lemma interval_fires_only_progress id s : only_progress id s (interval_fires id s).
Proof.
  unfold interval_fires, only_progress.
  destruct (timers s !! id) as [stepIndex|]; [|by repeat split].
  case_decide; simpl; repeat split; try done.
  intros j Hj. by rewrite lookup_insert_ne.
Qed.

Lemma elapse_only_progress id n s :
  only_progress id s (Nat.iter n (interval_fires id) s).
Proof.
  induction n as [|n IH]; simpl.
  - by repeat split.
  - pose proof (interval_fires_only_progress id (Nat.iter n (interval_fires id) s)) as Hstep.
    unfold only_progress in *.
    destruct IH as (?&?&?&?&?&?&?&?&?&?&Ht), Hstep as (?&?&?&?&?&?&?&?&?&?&Ht').
    repeat split; try congruence.
    intros j Hj. rewrite Ht', Ht; done.
Qed.

Lemma interval_fires_active id s :
  is_Some (timers s !! id) -> is_Some (timers (interval_fires id s) !! id).
Proof.
  unfold interval_fires. intros [stepIndex E]. rewrite E.
  case_decide; simpl; [by rewrite lookup_insert_eq | by rewrite E].
Qed.

Lemma elapse_active id n s :
  is_Some (timers s !! id) -> is_Some (timers (Nat.iter n (interval_fires id) s) !! id).
Proof.
  intros Hs. induction n as [|n IH]; simpl; [done|].
  by apply interval_fires_active.
Qed.

Lemma submit_catch_exec id e s :
  exec (submit_catch id e) s =
  push_console [LogText "Generation error:"; LogError e]
    (set_hidden LessonForm false
       (set_hidden LoadingDiv true
          (push_alert (generation_alert (err_message e))
             (set_timers (delete id (timers s)) (next_timer s) s)))).
Proof. reflexivity. Qed.

(** The [try] block either runs to its end, with some string assigned to
    the download link, or throws: before clearing the interval, after it,
    or after it has revealed the result panel. *)
Lemma submit_try_paths id net s :
  let cleared := set_timers (delete id (timers s)) (next_timer s) s in
  let revealed := set_hidden ResultDiv false (set_hidden LoadingDiv true cleared) in
  (exists href,
     submit_try id net s =
     (Completed tt,
      push_ui_call (ScrollIntoView ResultDiv) (set_download_href href revealed))) \/
  (exists e s1,
     submit_try id net s = (Threw e, s1) /\
     (s1 = s \/ s1 = cleared \/ s1 = revealed)).
Proof.
  intros cleared revealed. subst revealed cleared.
  unfold submit_try, assign_download_href, new_Error, classList_add_hidden,
    classList_remove_hidden, ui.
  unfold bind, fetch_settle, response_json, get_prop, clearInterval, evaluate,
    effect, ret, throw.
  destruct net as [e|[ok [body|e]]]; simpl; [right; by eauto 6 | | right; by eauto 6].
  destruct ok; simpl.
  - destruct body as [| |b|n|str|items|fields]; simpl;
      try (right; by eauto 6);
      try (destruct (to_string _); right; by eauto 6).
    destruct (is_string _ _); simpl.
    + destruct (to_string _); simpl; [left; by eauto | right; by eauto 7].
    + destruct (to_string _); right; by eauto 6.
  - destruct body as [| |b|n|str|items|fields]; simpl;
      try (right; by eauto 6);
      destruct (to_string _); right; by eauto 6.
Qed.

(** A failed request makes the [try] block throw, having at most cleared
    the interval. *)
Lemma submit_try_failure id net s :
  request_failed net ->
  exists e s1,
    submit_try id net s = (Threw e, s1) /\
    err_message e = failure_message net /\
    (s1 = s \/ s1 = set_timers (delete id (timers s)) (next_timer s) s).
Proof.
  unfold request_failed, submit_try, failure_message, new_Error.
  unfold bind, fetch_settle, response_json, get_prop, clearInterval,
    evaluate, effect, ret, throw.
  destruct net as [e|[ok [body|e]]]; simpl.
  - intros _. by thrown.
  - intros Hfail. destruct ok; simpl.
    + destruct Hfail as [?|Hstatus]; [done|].
      specialize (Hstatus body eq_refl).
      destruct body as [| |b|n|str|items|fields]; simpl in *;
        try (by thrown); try (destruct (to_string _); by thrown).
      destruct (default JUndefined (field "status" fields))
        as [| |b'|n'|str'|items'|fields'] eqn:E; simpl;
        try (destruct (to_string _); by thrown).
      destruct (String.eqb_spec str' "success") as [->|Hne]; [done|].
      simpl. destruct (to_string _); by thrown.
    + destruct body; simpl; try (by thrown); destruct (to_string _); by thrown.
  - intros _. by thrown.
Qed.

Lemma submit_try_success id r body href s :
  resp_ok r = true -> resp_json r = JsonOk body ->
  prop body "status" = JStr "success" ->
  to_string (prop body "download_url") = Completed href ->
  submit_try id (Resolved r) s =
  (Completed tt,
   push_ui_call (ScrollIntoView ResultDiv)
     (set_download_href href
        (set_hidden ResultDiv false
           (set_hidden LoadingDiv true
              (set_timers (delete id (timers s)) (next_timer s) s))))).
Proof.
  intros Hok Hjson Hstatus Hhref.
  unfold submit_try, assign_download_href.
  unfold bind, fetch_settle, response_json, clearInterval, evaluate, effect, ret.
  simpl. rewrite Hjson, Hok. simpl.
  destruct body; try discriminate Hstatus.
  unfold get_prop, ret. rewrite Hstatus. simpl in *. by rewrite Hhref.
Qed.

Lemma submit_present_exec s ticks net :
  Forall (filled (form_entries (controls s))) required_fields ->
  exec (submit ticks net) s =
  exec (submit_settled (next_timer s) net) (in_flight ticks s).
Proof.
  intros Hall. apply required_present_iff in Hall.
  unfold submit, in_flight, exec, bind at 1.
  rewrite (submit_begin_present s Hall). reflexivity.
Qed.

Lemma submit_missing_exec s ticks net :
  (exists name, name ∈ required_fields /\ unfilled (form_entries (controls s)) name) ->
  exec (submit ticks net) s =
  push_alert "Please fill in all required fields marked with *"
    (push_ui_call PreventDefault s).
Proof.
  intros Hmiss. apply required_missing_iff in Hmiss.
  unfold submit, exec, bind at 1.
  rewrite (submit_begin_missing s Hmiss). reflexivity.
Qed.

Lemma in_flight_page s ticks :
  Forall (filled (form_entries (controls s))) required_fields ->
  let w := in_flight ticks s in
  form_hidden w = true /\ loading_hidden w = false /\ result_hidden w = true /\
  download_href w = download_href s /\ controls w = controls s /\
  alerts w = alerts s /\ console w = console s /\
  requests w =
    requests s ++ [post "/api/generate-lesson-plan" (payload (form_entries (controls s)))] /\
  forall j, j <> next_timer s -> timers w !! j = timers s !! j.
Proof.
  intros Hall w. apply required_present_iff in Hall.
  pose proof (elapse_only_progress (next_timer s) ticks (exec submit_begin s)) as Hw.
  fold (in_flight ticks s) in Hw. fold w in Hw.
  unfold exec in Hw. rewrite (submit_begin_present s Hall) in Hw. simpl in Hw.
  destruct Hw as (?&?&?&?&?&?&?&?&?&?&Ht).
  repeat split; try done.
  intros j Hj. rewrite Ht by done. simpl. by rewrite lookup_insert_ne.
Qed.

Lemma submit_settled_success id r body href s :
  resp_ok r = true -> resp_json r = JsonOk body ->
  prop body "status" = JStr "success" ->
  to_string (prop body "download_url") = Completed href ->
  exec (submit_settled id (Resolved r)) s =
  push_ui_call (ScrollIntoView ResultDiv)
    (set_download_href href
       (set_hidden ResultDiv false
          (set_hidden LoadingDiv true
             (set_timers (delete id (timers s)) (next_timer s) s)))).
Proof.
  intros Hok Hjson Hstatus Hhref. unfold submit_settled, try_catch, exec.
  by rewrite (submit_try_success id r body href s Hok Hjson Hstatus Hhref).
Qed.

(** Whatever way the request failed, the [catch] block ran from a page that
    differs from [s] at most by the cleared interval. *)
Lemma submit_settled_failure id net s :
  request_failed net ->
  let s' := exec (submit_settled id net) s in
  form_hidden s' = false /\ loading_hidden s' = true /\
  result_hidden s' = result_hidden s /\ download_href s' = download_href s /\
  controls s' = controls s /\ requests s' = requests s /\
  alerts s' = alerts s ++ [generation_alert (failure_message net)] /\
  timers s' = delete id (timers s).
Proof.
  intros Hfail s'. subst s'.
  destruct (submit_try_failure id net s Hfail) as (e & s1 & Htry & Hmsg & Hs1).
  unfold submit_settled, try_catch, exec. rewrite Htry.
  change (snd (submit_catch id e s1)) with (exec (submit_catch id e) s1).
  rewrite submit_catch_exec, Hmsg.
  destruct Hs1 as [->| ->]; simpl; repeat split; try done.
  apply delete_delete_eq.
Qed.

(** On every path the settled handler sends nothing, clears its interval
    and leaves the progress text and the controls alone. *)
Lemma submit_settled_frame id net s :
  requests (exec (submit_settled id net) s) = requests s /\
  timers (exec (submit_settled id net) s) = delete id (timers s) /\
  progress_text (exec (submit_settled id net) s) = progress_text s /\
  controls (exec (submit_settled id net) s) = controls s /\
  next_timer (exec (submit_settled id net) s) = next_timer s.
Proof.
  unfold submit_settled, try_catch, exec.
  destruct (submit_try_paths id net s) as [[href ->] | (e & s1 & -> & Hs1)].
  - by simpl.
  - change (snd (submit_catch id e s1)) with (exec (submit_catch id e) s1).
    rewrite submit_catch_exec.
    destruct Hs1 as [-> | [-> | ->]]; simpl; repeat split; try done;
      apply delete_delete_eq.
Qed.

Lemma submit_settled_requests id net s :
  requests (exec (submit_settled id net) s) = requests s.
Proof. apply submit_settled_frame. Qed.

Lemma submit_settled_clears id net s :
  timers (exec (submit_settled id net) s) = delete id (timers s).
Proof. apply submit_settled_frame. Qed.

(** *** The submit handler: claims *)

(** C1, amended.  When the six required fields are filled, so that the
    request is sent, and the request resolves with an ok response whose
    body has [status] equal to 'success' and a [download_url] that can be
    converted to a string, the submit handler leaves the loading panel
    hidden and the result panel shown, and has set the download button's
    [href] to that [download_url].  No alert is shown. *)
Theorem submit_success_reveals_result s ticks r body href :
  Forall (filled (form_entries (controls s))) required_fields ->
  resp_ok r = true ->
  resp_json r = JsonOk body ->
  prop body "status" = JStr "success" ->
  to_string (prop body "download_url") = Completed href ->
  let s' := exec (submit ticks (Resolved r)) s in
  loading_hidden s' = true /\
  result_hidden s' = false /\
  download_href s' = href /\
  alerts s' = alerts s.
Proof.
  intros Hall Hok Hjson Hstatus Hhref s'. subst s'.
  rewrite (submit_present_exec s ticks _ Hall).
  rewrite (submit_settled_success _ r body href _ Hok Hjson Hstatus Hhref). simpl.
  destruct (in_flight_page s ticks Hall) as (_&_&_&_&_&Halerts&_).
  by repeat split.
Qed.

(** C2, amended.  When the request of a submission fails (a network error,
    a response that is not ok, or a body whose status is not 'success'), the
    submit handler leaves the loading panel hidden and the form shown, with
    its controls as they were, and shows exactly one alert, whose text wraps
    the message of the caught error: the rejection's own message when
    [fetch] or [response.json()] rejected, and otherwise the body's
    [message] converted to a string, or 'Failed to generate lesson plan'
    when the body has no truthy [message].  A [message] that cannot be
    converted to a string gives the message of the [TypeError] of that
    conversion, and a [null] body the message of the [TypeError] its
    property read throws. *)
Theorem submit_failure_restores_form s ticks net :
  Forall (filled (form_entries (controls s))) required_fields ->
  request_failed net ->
  let s' := exec (submit ticks net) s in
  loading_hidden s' = true /\
  form_hidden s' = false /\
  controls s' = controls s /\
  exists message,
    alerts s' = alerts s ++ [generation_alert message] /\
    (forall e, net = Rejected e -> message = err_message e) /\
    (forall r e, net = Resolved r -> resp_json r = JsonFails e ->
       message = err_message e) /\
    (forall r body, net = Resolved r -> resp_json r = JsonOk body ->
       body <> JNull -> body <> JUndefined ->
       match to_string (js_or (prop body "message")
                          (JStr "Failed to generate lesson plan")) with
       | Completed text => message = text
       | Threw e => message = err_message e
       end) /\
    (forall r body, net = Resolved r -> resp_json r = JsonOk body ->
       body = JNull \/ body = JUndefined ->
       exists k, message = err_message (null_access "read" k)).
Proof.
  intros Hall Hfail s'. subst s'.
  rewrite (submit_present_exec s ticks net Hall).
  destruct (submit_settled_failure (next_timer s) net (in_flight ticks s) Hfail)
    as (Hform & Hload & _ & _ & Hctl & _ & Halerts & _).
  destruct (in_flight_page s ticks Hall) as (_&_&_&_&Hctl'&Halerts'&_).
  split; [done|]. split; [done|]. split; [congruence|].
  exists (failure_message net). split; [congruence|].
  unfold failure_message. repeat split.
  - by intros e ->.
  - intros r e -> Hjson. by rewrite Hjson.
  - intros [ok json] body -> Hjson Hnull Hundef. simpl in *. subst json.
    destruct body; try done; by destruct (to_string _).
  - intros r body -> Hjson [-> | ->]; rewrite Hjson; by eexists.
Qed.

(** C3.  The submit handler validates exactly the six fields date,
    semester, grade, subject, topic and period.  If one of them has no
    entry or an empty one, the handler shows the validation alert and
    returns: no request is sent, the three panels keep their visibility and
    no interval is started.  If all six are filled, whatever the other
    fields hold, it sends exactly one request, a POST to
    /api/generate-lesson-plan. *)
Theorem submit_validates_required_fields s ticks net :
  let fd := form_entries (controls s) in
  let s' := exec (submit ticks net) s in
  ((exists name, name ∈ required_fields /\ unfilled fd name) ->
     alerts s' = alerts s ++ ["Please fill in all required fields marked with *"] /\
     requests s' = requests s /\
     form_hidden s' = form_hidden s /\
     loading_hidden s' = loading_hidden s /\
     result_hidden s' = result_hidden s /\
     timers s' = timers s) /\
  (Forall (filled fd) required_fields ->
     exists body,
       requests s' = requests s ++ [post "/api/generate-lesson-plan" body]).
Proof.
  intros fd s'. subst fd s'. split.
  - intros Hmiss. rewrite (submit_missing_exec s ticks net Hmiss). by repeat split.
  - intros Hall. rewrite (submit_present_exec s ticks net Hall).
    destruct (in_flight_page s ticks Hall) as (_&_&_&_&_&_&_&Hreq&_).
    exists (payload (form_entries (controls s))).
    by rewrite submit_settled_requests.
Qed.

(** C5.  The interval the submit handler starts is cleared on every path:
    once the handler has completed, whether the request succeeded, returned
    an error body or threw, and however often the interval fired meanwhile,
    that interval is no longer active, and no other interval was touched. *)
Theorem submit_clears_progress_interval s ticks net :
  Forall (filled (form_entries (controls s))) required_fields ->
  let progressInterval := next_timer s in
  let s' := exec (submit ticks net) s in
  is_Some (timers (in_flight ticks s) !! progressInterval) /\
  timers s' !! progressInterval = None /\
  forall j, j <> progressInterval -> timers s' !! j = timers s !! j.
Proof.
  intros Hall id s'. subst id s'.
  rewrite (submit_present_exec s ticks net Hall), submit_settled_clears.
  destruct (in_flight_page s ticks Hall) as (_&_&_&_&_&_&_&_&Ht).
  split; [|split].
  - unfold in_flight, exec.
    rewrite (submit_begin_present s (proj2 (required_present_iff _) Hall)). simpl.
    apply elapse_active. simpl. by rewrite lookup_insert_eq.
  - apply lookup_delete_eq.
  - intros j Hj. rewrite lookup_delete_ne by done. by apply Ht.
Qed.

Lemma formData_getAll_values fd name :
  formData_getAll (number := number) fd name = JArr (JStr <$> entry_values fd name).
Proof.
  unfold formData_getAll, entry_values. f_equal.
  induction fd as [|[k v] fd IH]; [done|].
  rewrite filter_cons. cbn [omap list_omap fst snd].
  destruct (String.eqb_spec k name) as [->|Hne].
  - rewrite decide_True by done. cbn. by rewrite IH.
  - rewrite decide_False by done. exact IH.
Qed.

(** C6.  When the six required fields are filled, the object posted to
    /api/generate-lesson-plan has exactly the eleven fields date, semester,
    grade, subject, topic, period, value, standards, digital_platform,
    gifted_talented and ppt_style.  The nine plain fields hold the form's
    first entry of their name ([null] without one), [standards] is the list
    of the values of all the form's standards entries, and
    [gifted_talented] is a boolean that is true exactly when the form's
    gifted_talented entry is 'on'. *)
Theorem submit_posts_payload s ticks net :
  let fd := form_entries (controls s) in
  Forall (filled fd) required_fields ->
  exists fields,
    requests (exec (submit ticks net) s) =
      requests s ++ [post "/api/generate-lesson-plan" (JObj fields)] /\
    fields.*1 =
      ["date"; "semester"; "grade"; "subject"; "topic"; "period"; "value";
       "standards"; "digital_platform"; "gifted_talented"; "ppt_style"] /\
    (forall name,
       name ∈ ["date"; "semester"; "grade"; "subject"; "topic"; "period";
               "value"; "digital_platform"; "ppt_style"] ->
       prop (JObj fields) name = from_option JStr JNull (head (entry_values fd name))) /\
    prop (JObj fields) "standards" = JArr (JStr <$> entry_values fd "standards") /\
    exists gifted,
      prop (JObj fields) "gifted_talented" = JBool gifted /\
      (gifted = true <-> head (entry_values fd "gifted_talented") = Some "on").
Proof.
  intros fd Hall. subst fd.
  rewrite (submit_present_exec s ticks net Hall), submit_settled_requests.
  destruct (in_flight_page s ticks Hall) as (_&_&_&_&_&_&_&Hreq&_).
  set (fd := form_entries (controls s)) in *.
  eexists. split; [exact Hreq|]. split; [reflexivity|]. split; [|split].
  - intros name Hin. rewrite <- formData_get_head.
    repeat (apply elem_of_cons in Hin as [->|Hin]; [reflexivity|]).
    by apply elem_of_nil in Hin.
  - cbn. apply formData_getAll_values.
  - eexists. split; [reflexivity|].
    rewrite formData_get_head.
    destruct (head (entry_values fd "gifted_talented")) as [v|]; simpl; [|done].
    destruct (String.eqb_spec v "on"); split; congruence.
Qed.

(** *** The date-change handler *)

Lemma find_control_assign_value id v cs :
  find_control id (assign_value id v cs) = with_value v <$> find_control id cs.
Proof.
  induction cs as [|c cs IH]; simpl; [done|].
  destruct (String.eqb (ctl_id c) id) eqn:E; simpl; by rewrite E.
Qed.

Lemma date_change_selected s net selectedDate :
  value_of "date" s = Some selectedDate -> selectedDate <> "" ->
  exec (date_change net) s =
  exec (try_catch (date_change_try selectedDate net) date_change_catch) s.
Proof.
  unfold value_of. intros Hdate Hne.
  unfold date_change, exec, bind at 1, input_value, read. simpl.
  rewrite Hdate. simpl.
  by destruct (String.eqb_spec selectedDate "").
Qed.



(** C9.  When the date input is empty as the change event fires, the
    date-change handler returns at once: the page is exactly as it was, so
    no request has been sent and the value input is unchanged. *)
Theorem date_change_empty_date s net :
  value_of "date" s = Some "" ->
  exec (date_change net) s = s /\
  requests (exec (date_change net) s) = requests s /\
  value_of "value" (exec (date_change net) s) = value_of "value" s.
Proof.
  unfold value_of. intros Hdate.
  assert (Hsame : exec (date_change net) s = s).
  { unfold date_change, exec, bind, input_value, read. simpl. by rewrite Hdate. }
  by rewrite Hsame.
Qed.

(** C4, amended.  A network failure of the submission request surfaces as
    an alert carrying the failure's message.  A network failure of the
    date-change request does not: the handler only logs it with
    [console.error], and no alert is shown. *)
Theorem network_failure_reporting s e :
  (forall ticks,
     Forall (filled (form_entries (controls s))) required_fields ->
     alerts (exec (submit ticks (Rejected e)) s) =
       alerts s ++ [generation_alert (err_message e)]) /\
  (forall selectedDate,
     value_of "date" s = Some selectedDate -> selectedDate <> "" ->
     alerts (exec (date_change (Rejected e)) s) = alerts s /\
     console (exec (date_change (Rejected e)) s) =
       console s ++ [[LogText "Error:"; LogError e]]).
Proof.
  split.
  - intros ticks Hall. rewrite (submit_present_exec s ticks _ Hall).
    destruct (submit_settled_failure (next_timer s) (Rejected e) (in_flight ticks s) I)
      as (_&_&_&_&_&_&Halerts&_).
    destruct (in_flight_page s ticks Hall) as (_&_&_&_&_&Halerts'&_).
    by rewrite Halerts, Halerts'.
  - intros selectedDate Hdate Hne.
    by rewrite (date_change_selected s _ selectedDate Hdate Hne).
Qed.

(** *** The "Generate Another" handler *)

Lemma reset_then_clear cs :
  Forall2 reset_to_defaults cs (assign_value "value" "" (reset_control <$> cs)).
Proof.
  assert (Hreset : forall c, reset_to_defaults c (reset_control c)).
  { intros c. unfold reset_to_defaults, reset_control.
    destruct (ctl_in_form c) eqn:E; simpl; rewrite ?E; by repeat split. }
  induction cs as [|c cs IH]; simpl; [constructor|].
  destruct (String.eqb_spec (ctl_id (reset_control c)) "value") as [Hid|Hid].
  - constructor.
    + destruct (Hreset c) as (?&?&?&?&?&?&?).
      unfold reset_to_defaults. simpl. repeat split; try done.
      intros Hc. congruence.
    + clear IH. induction cs; simpl; constructor; auto.
  - constructor; [apply Hreset | exact IH].
Qed.

(** C8.  On a page that has the value input, clicking "Generate Another"
    hides the result panel, shows the form, resets the form (every control
    of the form is back at its default value and default checkedness, every
    other control is untouched) and leaves the value input empty. *)
Theorem new_plan_click_resets_form s :
  is_Some (value_of "value" s) ->
  let s' := exec new_plan_click s in
  result_hidden s' = true /\
  form_hidden s' = false /\
  Forall2 reset_to_defaults (controls s) (controls s') /\
  value_of "value" s' = Some "".
Proof.
  intros [old Hvalue] s'. subst s'. unfold value_of in *.
  apply fmap_Some in Hvalue as (c & Hfind & _).
  assert (Hfind' : find_control "value" (reset_control <$> controls s) =
                   Some (reset_control c)).
  { clear -Hfind. induction (controls s) as [|c' cs IH]; simpl in *; [done|].
    assert (Hid : ctl_id (reset_control c') = ctl_id c')
      by (unfold reset_control; by destruct (ctl_in_form c')).
    rewrite Hid. destruct (String.eqb (ctl_id c') "value"); [congruence | auto]. }
  unfold new_plan_click, exec, bind, classList_add_hidden, classList_remove_hidden,
    form_reset, effect, set_input_value, ui. simpl.
  rewrite Hfind'. simpl.
  split; [done|]. split; [done|]. split; [apply reset_then_clear|].
  by rewrite find_control_assign_value, Hfind'.
Qed.

(** C10.  "Generate Another" never touches the download button: its [href]
    is what it was before the click.  In particular, after a successful
    submission that has assigned a [download_url] to it, followed by a
    click, it is still that [download_url]. *)
Theorem new_plan_click_keeps_download_href s :
  download_href (exec new_plan_click s) = download_href s /\
  (forall ticks r body href,
     Forall (filled (form_entries (controls s))) required_fields ->
     resp_ok r = true -> resp_json r = JsonOk body ->
     prop body "status" = JStr "success" ->
     to_string (prop body "download_url") = Completed href ->
     download_href (exec new_plan_click (exec (submit ticks (Resolved r)) s)) = href).
Proof.
  assert (Hkeep : forall s0 : page number,
            download_href (exec new_plan_click s0) = download_href s0).
  { intros s0.
    unfold new_plan_click, exec, bind, classList_add_hidden, classList_remove_hidden,
      form_reset, effect, set_input_value, ui. simpl.
    by destruct (find_control "value" (reset_control <$> controls s0)). }
  split; [apply Hkeep|].
  intros ticks r body href Hall Hok Hjson Hstatus Hhref. rewrite Hkeep.
  rewrite (submit_present_exec s ticks _ Hall).
  by rewrite (submit_settled_success _ r body href _ Hok Hjson Hstatus Hhref).
Qed.

End Properties.

(** ** The properties at work on the concrete page *)

Local Ltac all_filled :=
  repeat constructor; eexists; (split; [vm_compute; reflexivity | discriminate]).

Lemma submit_success_reveals_result_witness :
  Forall (filled (form_entries (controls filled_page))) required_fields /\
  loading_hidden (exec (submit 2 success_net) filled_page) = true /\
  result_hidden (exec (submit 2 success_net) filled_page) = false /\
  download_href (exec (submit 2 success_net) filled_page) = "/download/plan.zip" /\
  alerts (exec (submit 2 success_net) filled_page) = [].
Proof.
  split; [all_filled|].
  apply (submit_success_reveals_result filled_page 2
           {| resp_ok := true; resp_json := JsonOk success_body |} success_body
           "/download/plan.zip");
    [all_filled | reflexivity | reflexivity | reflexivity | reflexivity].
Defined.

(** C1 as stated fails: the response is ok and its status is 'success', but
    its [download_url] is an object with a key [toString] of its own.  The
    assignment to [href] throws after the result panel has been revealed:
    the link keeps its old target, and the [catch] block shows the alert
    and the form again. *)
Lemma submit_success_stringless_url_sets_no_href :
  Forall (filled (form_entries (controls filled_page))) required_fields /\
  download_href (exec (submit 2 stringless_url_net) filled_page) = "#" /\
  result_hidden (exec (submit 2 stringless_url_net) filled_page) = false /\
  form_hidden (exec (submit 2 stringless_url_net) filled_page) = false /\
  alerts (exec (submit 2 stringless_url_net) filled_page) =
    [generation_alert "Cannot convert object to primitive value"].
Proof.
  split; [all_filled|]. by vm_compute.
Qed.

(** C2 as stated fails: when the network is down there is no response body,
    and the alert carries neither a body's message nor the default one but
    the message of the rejection. *)
Lemma submit_network_failure_alert_not_from_body :
  request_failed network_down /\
  alerts (exec (submit 0 network_down) filled_page) =
    [generation_alert "Failed to fetch"] /\
  alerts (exec (submit 0 network_down) filled_page) <>
    alerts filled_page ++ [generation_alert (body_or_default_message network_down)].
Proof.
  split; [exact I|]. split; [reflexivity|]. vm_compute. discriminate.
Qed.

Lemma submit_failure_restores_form_witness :
  request_failed (server_error "Quota exceeded") /\
  loading_hidden (exec (submit 9 (server_error "Quota exceeded")) filled_page) = true /\
  form_hidden (exec (submit 9 (server_error "Quota exceeded")) filled_page) = false /\
  controls (exec (submit 9 (server_error "Quota exceeded")) filled_page) = filled_controls /\
  exists message,
    alerts (exec (submit 9 (server_error "Quota exceeded")) filled_page) =
      [generation_alert message] /\
    message = "Quota exceeded".
Proof.
  assert (Hfail : request_failed (server_error "Quota exceeded")) by (by left).
  split; [exact Hfail|].
  destruct (submit_failure_restores_form filled_page 9 (server_error "Quota exceeded"))
    as (Hload & Hform & Hctl & message & Halert & _ & _ & Hbody & _);
    [all_filled | exact Hfail |].
  split; [exact Hload|]. split; [exact Hform|]. split; [exact Hctl|].
  exists message. split; [exact Halert|].
  apply (Hbody _ _ eq_refl eq_refl); discriminate.
Defined.

Lemma submit_validates_required_fields_witness :
  (alerts (exec (submit 3 success_net) topicless_page) =
     ["Please fill in all required fields marked with *"] /\
   requests (exec (submit 3 success_net) topicless_page) = []) /\
  exists body,
    requests (exec (submit 3 success_net) filled_page) =
      [post "/api/generate-lesson-plan" body].
Proof.
  split.
  - destruct (proj1 (submit_validates_required_fields topicless_page 3 success_net))
      as (Halert & Hreq & _).
    + exists "topic". split; [set_solver | right; vm_compute; reflexivity].
    + split; [exact Halert | exact Hreq].
  - apply (proj2 (submit_validates_required_fields filled_page 3 success_net)).
    all_filled.
Defined.

(** C4 as stated fails: the date-change request is sent, the network is
    down, and no alert comes up. *)
Lemma date_change_network_failure_shows_no_alert :
  requests (exec (date_change network_down) filled_page) =
    [post "/api/get-month-value" (JObj [("date", JStr "2025-03-10")])] /\
  ~ alert_surfaced filled_page (exec (date_change network_down) filled_page).
Proof.
  split; [reflexivity|]. intros [msg Hmsg]. vm_compute in Hmsg. discriminate.
Qed.

Lemma network_failure_reporting_witness :
  alerts (exec (submit 1 network_down) filled_page) =
    [generation_alert "Failed to fetch"] /\
  alerts (exec (date_change network_down) filled_page) = [] /\
  console (exec (date_change network_down) filled_page) =
    [[LogText "Error:";
      LogError {| err_name := "TypeError"; err_message := "Failed to fetch" |}]].
Proof.
  split.
  - apply (proj1 (network_failure_reporting filled_page
                    {| err_name := "TypeError"; err_message := "Failed to fetch" |}) 1).
    all_filled.
  - apply (proj2 (network_failure_reporting filled_page
                    {| err_name := "TypeError"; err_message := "Failed to fetch" |})
             "2025-03-10"); [reflexivity | discriminate].
Defined.

Lemma submit_clears_progress_interval_witness :
  is_Some (timers (in_flight 4 filled_page) !! 1) /\
  timers (exec (submit 4 (server_error "")) filled_page) !! 1 = None /\
  forall j, j <> 1 ->
    timers (exec (submit 4 (server_error "")) filled_page) !! j = timers filled_page !! j.
Proof.
  apply (submit_clears_progress_interval filled_page 4 (server_error "")). all_filled.
Defined.

Lemma submit_posts_payload_witness :
  exists fields,
    requests (exec (submit 0 success_net) filled_page) =
      [post "/api/generate-lesson-plan" (JObj fields)] /\
    prop (JObj fields) "standards" = JArr [JStr "NGSS-1"; JStr "NGSS-3"] /\
    prop (JObj fields) "gifted_talented" = JBool true.
Proof.
  destruct (submit_posts_payload filled_page 0 success_net)
    as (fields & Hreq & _ & _ & Hstd & gifted & Hgifted & Hon); [all_filled|].
  exists fields. split; [exact Hreq|]. split; [exact Hstd|].
  rewrite Hgifted. f_equal. apply Hon. reflexivity.
Defined.



Lemma new_plan_click_resets_form_witness :
  result_hidden (exec new_plan_click (exec (submit 2 success_net) filled_page)) = true /\
  form_hidden (exec new_plan_click (exec (submit 2 success_net) filled_page)) = false /\
  Forall2 reset_to_defaults filled_controls
    (controls (exec new_plan_click (exec (submit 2 success_net) filled_page))) /\
  value_of "value" (exec new_plan_click (exec (submit 2 success_net) filled_page)) = Some "".
Proof.
  apply (new_plan_click_resets_form (exec (submit 2 success_net) filled_page)).
  by eexists.
Defined.

Lemma date_change_empty_date_witness :
  value_of "date" dateless_page = Some "" /\
  exec (date_change success_net) dateless_page = dateless_page /\
  requests (exec (date_change success_net) dateless_page) = [] /\
  value_of "value" (exec (date_change success_net) dateless_page) = Some "Tolerance".
Proof.
  split; [reflexivity|].
  apply (date_change_empty_date dateless_page success_net). reflexivity.
Defined.

Lemma new_plan_click_keeps_download_href_witness :
  download_href (exec new_plan_click (exec (submit 2 success_net) filled_page)) =
  "/download/plan.zip".
Proof.
  apply (proj2 (new_plan_click_keeps_download_href filled_page) 2
           {| resp_ok := true; resp_json := JsonOk success_body |} success_body);
    [all_filled | reflexivity | reflexivity | reflexivity | reflexivity].
Defined.

(** ** Further properties of the handlers *)

Section Coverage.
Context {number : Type} `{NumberOps number}.
#[local] Arguments to_string : simpl never.
Implicit Types (s : page number) (net : fetch_outcome number)
  (fd : list (string * string)) (cs : list control).

(** *** The progress interval *)

Lemma progressSteps_length : length progressSteps = 8.
Proof. reflexivity. Qed.

Lemma elapse_progress id n s stepIndex :
  timers s !! id = Some stepIndex ->
  stepIndex <= length progressSteps ->
  timers (Nat.iter n (interval_fires id) s) !! id =
    Some (Nat.min (stepIndex + n) (length progressSteps)) /\
  progress_text (Nat.iter n (interval_fires id) s) =
    match n with
    | 0 => progress_text s
    | S k => default "⏳ Finalizing your package..." (progressSteps !! (stepIndex + k))
    end.
Proof.
  intros Hstart Hle. rewrite progressSteps_length in *.
  induction n as [|n [IHt IHp]].
  - simpl. split; [|done]. rewrite Hstart. f_equal. lia.
  - simpl Nat.iter. set (w := Nat.iter n (interval_fires id) s) in *.
    unfold interval_fires. rewrite IHt.
    case_decide as Hlt; simpl; rewrite ?progressSteps_length in *.
    + rewrite lookup_insert_eq. split; [f_equal; lia|].
      replace (Nat.min (stepIndex + n) 8) with (stepIndex + n) by lia.
      destruct (lookup_lt_is_Some_2 progressSteps (stepIndex + n)) as [text Htext];
        [rewrite progressSteps_length; lia|].
      by rewrite Htext.
    + rewrite IHt. split; [f_equal; lia|].
      rewrite (lookup_ge_None_2 progressSteps (stepIndex + n));
        [done | rewrite progressSteps_length; lia].
Qed.

(** Whichever way the request settles, the handler's continuation writes
    neither the progress text nor a control. *)
Lemma submit_settled_keeps id net s :
  progress_text (exec (submit_settled id net) s) = progress_text s /\
  controls (exec (submit_settled id net) s) = controls s /\
  next_timer (exec (submit_settled id net) s) = next_timer s.
Proof.
  destruct (submit_settled_frame id net s) as (_ & _ & ? & ? & ?). by repeat split.
Qed.

(** X1.  The progress text is written by the interval's callback only.
    With the required fields filled, once the handler has completed the
    text is still what the page showed before if the interval never fired;
    after [k+1] firings it is the message number [k] of the eight, and from
    the ninth firing on the finalizing message.  The callback's step index
    counts the firings and stops at eight. *)
Theorem submit_progress_text s ticks net :
  Forall (filled (form_entries (controls s))) required_fields ->
  timers (in_flight ticks s) !! next_timer s =
    Some (Nat.min ticks (length progressSteps)) /\
  progress_text (exec (submit ticks net) s) =
    match ticks with
    | 0 => progress_text s
    | S k => default "⏳ Finalizing your package..." (progressSteps !! k)
    end.
Proof.
  intros Hall. rewrite (submit_present_exec s ticks net Hall).
  destruct (submit_settled_keeps (next_timer s) net (in_flight ticks s)) as (-> & _).
  unfold in_flight, exec.
  rewrite (submit_begin_present s (proj2 (required_present_iff _) Hall)). simpl.
  match goal with |- context [Nat.iter ticks _ ?w] =>
    destruct (elapse_progress (next_timer s) ticks w 0) as [Ht Hp] end.
  - simpl. by rewrite lookup_insert_eq.
  - lia.
  - split; [exact Ht | exact Hp].
Qed.

(** X2.  If the id that [setInterval] is about to hand out is not in use,
    a completed submit handler leaves the set of active intervals exactly
    as it found it, whether it stopped at the validation or went through
    the request: no interval leaks. *)
Theorem submit_leaks_no_interval s ticks net :
  timers s !! next_timer s = None ->
  timers (exec (submit ticks net) s) = timers s.
Proof.
  intros Hfresh.
  destruct (required_missing (payload (number := number) (form_entries (controls s))))
    eqn:Hreq.
  - apply required_missing_iff in Hreq.
    by rewrite (submit_missing_exec s ticks net Hreq).
  - apply required_present_iff in Hreq.
    rewrite (submit_present_exec s ticks net Hreq), submit_settled_clears.
    destruct (in_flight_page s ticks Hreq) as (_&_&_&_&_&_&_&_&Ht).
    apply map_eq. intros j. destruct (decide (j = next_timer s)) as [->|Hj].
    + by rewrite lookup_delete_eq, Hfresh.
    + rewrite lookup_delete_ne by done. by apply Ht.
Qed.

(** *** The submit handler between and after its awaits *)

Lemma in_flight_rest s ticks :
  Forall (filled (form_entries (controls s))) required_fields ->
  ui_calls (in_flight ticks s) = ui_calls s ++ [PreventDefault] /\
  next_timer (in_flight ticks s) = S (next_timer s).
Proof.
  intros Hall. apply required_present_iff in Hall.
  pose proof (elapse_only_progress (next_timer s) ticks (exec submit_begin s)) as Hw.
  fold (in_flight ticks s) in Hw.
  unfold exec in Hw. rewrite (submit_begin_present s Hall) in Hw. simpl in Hw.
  destruct Hw as (_&_&_&_&_&Hnext&_&_&_&Hui&_). by split.
Qed.

Lemma submit_settled_failure_log id net s :
  request_failed net ->
  exists e,
    alerts (exec (submit_settled id net) s) =
      alerts s ++ [generation_alert (err_message e)] /\
    console (exec (submit_settled id net) s) =
      console s ++ [[LogText "Generation error:"; LogError e]] /\
    ui_calls (exec (submit_settled id net) s) = ui_calls s.
Proof.
  intros Hfail.
  destruct (submit_try_failure id net s Hfail) as (e & s1 & Htry & _ & Hs1).
  exists e. unfold submit_settled, try_catch, exec. rewrite Htry.
  change (snd (submit_catch id e s1)) with (exec (submit_catch id e) s1).
  rewrite submit_catch_exec. by destruct Hs1 as [->| ->].
Qed.

(** X3.  While the request of a valid submission is in flight, however
    often the interval has fired, the form is hidden, the loading panel is
    shown and the result panel is hidden; the request has been sent, no
    alert has come up, and the default action of the submit event has been
    prevented. *)
Theorem submit_shows_loading_state s ticks :
  Forall (filled (form_entries (controls s))) required_fields ->
  let w := in_flight ticks s in
  form_hidden w = true /\ loading_hidden w = false /\ result_hidden w = true /\
  requests w =
    requests s ++ [post "/api/generate-lesson-plan" (payload (form_entries (controls s)))] /\
  alerts w = alerts s /\
  ui_calls w = ui_calls s ++ [PreventDefault].
Proof.
  intros Hall w. subst w.
  destruct (in_flight_page s ticks Hall) as (?&?&?&_&_&?&_&?&_).
  destruct (in_flight_rest s ticks Hall) as (? & _).
  by repeat split.
Qed.

(** X4.  When the request of a valid submission fails, the result panel
    stays hidden and the download link is not touched; the caught error is
    logged once with [console.error], after 'Generation error:', and it is
    the error whose message the alert shows. *)
Theorem submit_failure_logs_error s ticks net :
  Forall (filled (form_entries (controls s))) required_fields ->
  request_failed net ->
  let s' := exec (submit ticks net) s in
  result_hidden s' = true /\
  download_href s' = download_href s /\
  exists e,
    console s' = console s ++ [[LogText "Generation error:"; LogError e]] /\
    alerts s' = alerts s ++ [generation_alert (err_message e)] /\
    ui_calls s' = ui_calls s ++ [PreventDefault].
Proof.
  intros Hall Hfail s'. subst s'.
  rewrite (submit_present_exec s ticks net Hall).
  destruct (submit_settled_failure (next_timer s) net (in_flight ticks s) Hfail)
    as (_ & _ & Hres & Hhref & _).
  destruct (submit_settled_failure_log (next_timer s) net (in_flight ticks s) Hfail)
    as (e & Halert & Hlog & Hui).
  destruct (in_flight_page s ticks Hall) as (_&_&Hres'&Hhref'&_&Halert'&Hlog'&_).
  destruct (in_flight_rest s ticks Hall) as (Hui' & _).
  split; [congruence|]. split; [congruence|].
  exists e. by rewrite Hlog, Halert, Hui, Hlog', Halert', Hui'.
Qed.

(** X5.  On a successful submission whose [download_url] can be converted
    to a string the form stays hidden, nothing is logged with
    [console.error], no control changes, and the handler makes two calls
    besides: [preventDefault] on the event and [scrollIntoView] on the
    result panel, in that order. *)
Theorem submit_success_keeps_form_hidden s ticks r body href :
  Forall (filled (form_entries (controls s))) required_fields ->
  resp_ok r = true ->
  resp_json r = JsonOk body ->
  prop body "status" = JStr "success" ->
  to_string (prop body "download_url") = Completed href ->
  let s' := exec (submit ticks (Resolved r)) s in
  form_hidden s' = true /\
  console s' = console s /\
  controls s' = controls s /\
  ui_calls s' = ui_calls s ++ [PreventDefault; ScrollIntoView ResultDiv].
Proof.
  intros Hall Hok Hjson Hstatus Hhref s'. subst s'.
  rewrite (submit_present_exec s ticks _ Hall).
  rewrite (submit_settled_success _ r body href _ Hok Hjson Hstatus Hhref). simpl.
  destruct (in_flight_page s ticks Hall) as (?&_&_&_&?&_&?&_).
  destruct (in_flight_rest s ticks Hall) as (Hui & _).
  repeat split; try done. rewrite Hui. by rewrite <- app_assoc.
Qed.

(** X6.  The submit handler never writes a control: whatever the form
    holds and whatever the network answers, every control, in or out of
    the form, has the value and checkedness it had, so what the user typed
    survives a failed attempt. *)
Theorem submit_keeps_controls s ticks net :
  controls (exec (submit ticks net) s) = controls s.
Proof.
  destruct (required_missing (payload (number := number) (form_entries (controls s))))
    eqn:Hreq.
  - apply required_missing_iff in Hreq.
    by rewrite (submit_missing_exec s ticks net Hreq).
  - apply required_present_iff in Hreq.
    rewrite (submit_present_exec s ticks net Hreq).
    destruct (submit_settled_keeps (next_timer s) net (in_flight ticks s)) as (_ & -> & _).
    by destruct (in_flight_page s ticks Hreq) as (_&_&_&_&?&_).
Qed.

(** X7.  Retrying by resubmission: after a failed attempt the same form can
    be submitted again.  The second request carries the same payload as the
    first, and when it succeeds with a [download_url] that can be converted
    to a string, the result panel is shown with the new download link, the
    one alert of the failed attempt being the only one. *)
Theorem submit_retry_after_failure s ticks1 net1 ticks2 r body href :
  Forall (filled (form_entries (controls s))) required_fields ->
  request_failed net1 ->
  resp_ok r = true ->
  resp_json r = JsonOk body ->
  prop body "status" = JStr "success" ->
  to_string (prop body "download_url") = Completed href ->
  let s1 := exec (submit ticks1 net1) s in
  let s2 := exec (submit ticks2 (Resolved r)) s1 in
  requests s2 =
    requests s ++
    [post "/api/generate-lesson-plan" (payload (form_entries (controls s)));
     post "/api/generate-lesson-plan" (payload (form_entries (controls s)))] /\
  form_hidden s2 = true /\ loading_hidden s2 = true /\ result_hidden s2 = false /\
  download_href s2 = href /\
  exists message, alerts s2 = alerts s ++ [generation_alert message].
Proof.
  intros Hall Hfail Hok Hjson Hstatus Hhref s1 s2.
  assert (Hctl : controls s1 = controls s).
  { subst s1. rewrite (submit_present_exec s ticks1 net1 Hall).
    destruct (submit_settled_keeps (next_timer s) net1 (in_flight ticks1 s)) as (_ & -> & _).
    by destruct (in_flight_page s ticks1 Hall) as (_&_&_&_&?&_). }
  assert (Hall1 : Forall (filled (form_entries (controls s1))) required_fields)
    by (by rewrite Hctl).
  assert (Hfirst : requests s1 =
            requests s ++ [post "/api/generate-lesson-plan" (payload (form_entries (controls s)))] /\
            alerts s1 = alerts s ++ [generation_alert (failure_message net1)]).
  { subst s1. rewrite (submit_present_exec s ticks1 net1 Hall).
    destruct (submit_settled_failure (next_timer s) net1 (in_flight ticks1 s) Hfail)
      as (_&_&_&_&_&Hreq&Halert&_).
    destruct (in_flight_page s ticks1 Hall) as (_&_&_&_&_&Halert'&_&Hreq'&_).
    by rewrite Hreq, Halert, Hreq', Halert'. }
  destruct Hfirst as [Hreq1 Halert1].
  subst s2. rewrite (submit_present_exec s1 ticks2 _ Hall1).
  rewrite (submit_settled_success _ r body href _ Hok Hjson Hstatus Hhref). simpl.
  destruct (in_flight_page s1 ticks2 Hall1) as (Hform&_&_&_&_&Halert2&_&Hreq2&_).
  rewrite Hreq2, Halert2, Hreq1, Halert1, Hctl, <- app_assoc.
  repeat split; try done. by eexists.
Qed.

(** *** The date-change handler, whatever the network answers *)

Local Ltac run_date_change :=
  unfold exec, try_catch, date_change_try, date_change_catch;
  unfold bind, fetch_send, effect, fetch_settle, response_json, get_prop,
    assign_input_value, console_error, throw, ret;
  simpl.

Local Ltac date_frame :=
  repeat split; try done; try (intros []; done);
  try (by left); try (right; by eexists).

Lemma date_change_try_catch_frame s net d :
  let s' := exec (try_catch (date_change_try d net) date_change_catch) s in
  requests s' = requests s ++ [post "/api/get-month-value" (JObj [("date", JStr d)])] /\
  alerts s' = alerts s /\ (forall p, hidden p s' = hidden p s) /\
  download_href s' = download_href s /\ progress_text s' = progress_text s /\
  timers s' = timers s /\ ui_calls s' = ui_calls s /\
  (controls s' = controls s \/
   exists v, controls s' = assign_value "value" v (controls s)).
Proof.
  run_date_change.
  destruct net as [e|[ok [body|e]]]; simpl; try by date_frame.
  destruct body as [| |b|n|str|items|fields]; simpl; try by date_frame.
  destruct (truthy (default JUndefined (field "value" fields))); simpl.
  - destruct (find_control "value" (controls s)); simpl; [|by date_frame].
    destruct (to_string _); simpl; by date_frame.
  - destruct (truthy (default JUndefined (field "error" fields))); simpl;
      by date_frame.
Qed.

Lemma date_change_unselected s net :
  value_of "date" s = None \/ value_of "date" s = Some "" ->
  exec (date_change net) s = s.
Proof.
  unfold value_of. intros Hdate.
  unfold date_change, exec, bind, input_value, read. simpl.
  by destruct Hdate as [-> | ->].
Qed.

(** X8.  With a non-empty date selected the date-change handler sends its
    request exactly once, whatever then comes back; and whatever the date
    and the answer, it shows no alert, toggles no panel, and leaves the
    download link, the progress text, the intervals and every control other
    than the value input alone. *)
Theorem date_change_touches_only_value s net :
  let s' := exec (date_change net) s in
  (forall selectedDate,
     value_of "date" s = Some selectedDate -> selectedDate <> "" ->
     requests s' =
       requests s ++ [post "/api/get-month-value" (JObj [("date", JStr selectedDate)])]) /\
  alerts s' = alerts s /\
  (forall p, hidden p s' = hidden p s) /\
  download_href s' = download_href s /\
  progress_text s' = progress_text s /\
  timers s' = timers s /\
  ui_calls s' = ui_calls s /\
  (controls s' = controls s \/
   exists v, controls s' = assign_value "value" v (controls s)).
Proof.
  intros s'. subst s'.
  destruct (value_of "date" s) as [d|] eqn:Hdate.
  - destruct (decide (d = "")) as [->|Hne].
    + rewrite (date_change_unselected s net) by (by right).
      repeat split; try done; try (by intros ? [= <-]). by left.
    + rewrite (date_change_selected s net d Hdate Hne).
      destruct (date_change_try_catch_frame s net d) as (Hreq & Hrest).
      split; [|exact Hrest]. by intros ? [= <-] _.
  - rewrite (date_change_unselected s net) by (by left).
    repeat split; try done. by left.
Qed.

(** X9.  With a non-empty date selected, a response whose body cannot be
    read makes the date-change handler log and nothing more.  When
    [response.json()] rejects, the rejection is logged after 'Error:'; when
    the body is [null], the [TypeError] of reading its [value] is.  The
    controls stay as they were. *)
Theorem date_change_unreadable_body s r selectedDate :
  value_of "date" s = Some selectedDate ->
  selectedDate <> "" ->
  let s' := exec (date_change (Resolved r)) s in
  (forall e, resp_json r = JsonFails e ->
     controls s' = controls s /\
     console s' = console s ++ [[LogText "Error:"; LogError e]]) /\
  (resp_json r = JsonOk JNull ->
     controls s' = controls s /\
     console s' = console s ++ [[LogText "Error:"; LogError (null_access "read" "value")]]).
Proof.
  intros Hdate Hne s'. subst s'.
  rewrite (date_change_selected s _ selectedDate Hdate Hne).
  run_date_change. split.
  - intros e ->. by simpl.
  - intros ->. by simpl.
Qed.

(** X10.  On a page without the value input, a truthy [value] in the
    answer cannot be stored: the assignment throws inside the [try] block,
    and the handler logs that [TypeError] after 'Error:' and changes no
    control. *)
Theorem date_change_without_value_input s r data selectedDate :
  value_of "date" s = Some selectedDate ->
  selectedDate <> "" ->
  value_of "value" s = None ->
  resp_json r = JsonOk data ->
  truthy (prop data "value") = true ->
  let s' := exec (date_change (Resolved r)) s in
  controls s' = controls s /\
  alerts s' = alerts s /\
  console s' = console s ++ [[LogText "Error:"; LogError (null_access "set" "value")]].
Proof.
  intros Hdate Hne Hvalue Hjson Htruthy s'. subst s'.
  rewrite (date_change_selected s _ selectedDate Hdate Hne).
  unfold value_of in Hvalue. apply fmap_None in Hvalue.
  run_date_change. rewrite Hjson.
  destruct data as [| |b|n|str|items|fields]; simpl in *; try done.
  rewrite Htruthy. simpl. by rewrite Hvalue.
Qed.

(** *** "Generate Another" *)

Lemma find_control_reset id cs :
  find_control id (reset_control <$> cs) = reset_control <$> find_control id cs.
Proof.
  induction cs as [|c cs IH]; simpl; [done|].
  assert (Hid : ctl_id (reset_control c) = ctl_id c)
    by (unfold reset_control; by destruct (ctl_in_form c)).
  rewrite Hid. by destruct (String.eqb (ctl_id c) id).
Qed.

Lemma new_plan_click_run s :
  new_plan_click s =
  let s1 := set_controls (reset_control <$> controls s)
              (set_hidden LessonForm false (set_hidden ResultDiv true s)) in
  match find_control "value" (controls s) with
  | Some _ =>
      (Completed tt,
       push_ui_call ScrollToTop
         (set_controls (assign_value "value" "" (reset_control <$> controls s)) s1))
  | None => (Threw (null_access "set" "value"), s1)
  end.
Proof.
  unfold new_plan_click, bind, classList_add_hidden, classList_remove_hidden,
    form_reset, effect, set_input_value, ui. simpl.
  rewrite find_control_reset. by destruct (find_control "value" (controls s)).
Qed.

(** X11.  A successful submission, with a [download_url] that can be
    converted to a string, followed by "Generate Another" brings the three
    panels back to where a fresh page has them: the form shown, the loading
    panel and the result panel hidden.  The click sends no request and no
    alert has been shown. *)
Theorem success_then_new_plan_shows_form s ticks r body href :
  Forall (filled (form_entries (controls s))) required_fields ->
  resp_ok r = true ->
  resp_json r = JsonOk body ->
  prop body "status" = JStr "success" ->
  to_string (prop body "download_url") = Completed href ->
  let s1 := exec (submit ticks (Resolved r)) s in
  let s2 := exec new_plan_click s1 in
  form_hidden s2 = false /\ loading_hidden s2 = true /\ result_hidden s2 = true /\
  requests s2 = requests s1 /\ alerts s2 = alerts s.
Proof.
  intros Hall Hok Hjson Hstatus Hhref s1 s2. subst s2. unfold exec at 1 2 3 4 5.
  rewrite new_plan_click_run.
  assert (Hs1 : loading_hidden s1 = true /\ alerts s1 = alerts s).
  { subst s1. rewrite (submit_present_exec s ticks _ Hall).
    rewrite (submit_settled_success _ r body href _ Hok Hjson Hstatus Hhref). simpl.
    by destruct (in_flight_page s ticks Hall) as (_&_&_&_&_&?&_). }
  destruct Hs1 as [Hload Halert].
  destruct (find_control "value" (controls s1)); simpl; by repeat split.
Qed.

(** X12.  On a page without the value input, "Generate Another" hides the
    result, shows the form and resets the form, and then throws the
    [TypeError] of assigning to [null]: the handler never reaches its
    scroll to the top. *)
Theorem new_plan_click_without_value_input s :
  value_of "value" s = None ->
  fst (new_plan_click s) = Threw (null_access "set" "value") /\
  result_hidden (exec new_plan_click s) = true /\
  form_hidden (exec new_plan_click s) = false /\
  controls (exec new_plan_click s) = reset_control <$> controls s /\
  ui_calls (exec new_plan_click s) = ui_calls s.
Proof.
  unfold value_of. intros Hvalue. apply fmap_None in Hvalue.
  unfold exec. rewrite new_plan_click_run, Hvalue. by simpl.
Qed.

Lemma reset_control_twice c : reset_control (reset_control c) = reset_control c.
Proof. unfold reset_control. destruct (ctl_in_form c) eqn:E; simpl; by rewrite ?E. Qed.

Lemma reset_after_clear c :
  with_value "" (reset_control (with_value "" (reset_control c))) =
  with_value "" (reset_control c).
Proof. unfold reset_control, with_value. destruct (ctl_in_form c) eqn:E; simpl; by rewrite ?E. Qed.

Lemma clear_after_reset_twice cs :
  assign_value "value" "" (reset_control <$> assign_value "value" "" (reset_control <$> cs)) =
  assign_value "value" "" (reset_control <$> cs).
Proof.
  induction cs as [|c cs IH]; simpl; [done|].
  destruct (String.eqb (ctl_id (reset_control c)) "value") eqn:E; simpl.
  - assert (Hid : ctl_id (reset_control (with_value "" (reset_control c))) =
                  ctl_id (reset_control c)).
    { unfold reset_control, with_value. by destruct (ctl_in_form c) eqn:E'; simpl; rewrite ?E'. }
    rewrite Hid, E, reset_after_clear. f_equal.
    rewrite <- list_fmap_compose. apply list_fmap_ext. intros ? c' _. simpl.
    apply reset_control_twice.
  - rewrite reset_control_twice, E. f_equal. exact IH.
Qed.

(** X13.  Clicking "Generate Another" a second time changes nothing the
    first click has set: the controls and the three panels are the same
    after two clicks as after one. *)
Theorem new_plan_click_twice s :
  let s1 := exec new_plan_click s in
  let s2 := exec new_plan_click s1 in
  controls s2 = controls s1 /\
  forall p, hidden p s2 = hidden p s1.
Proof.
  intros s1 s2. subst s2 s1. unfold exec. rewrite !new_plan_click_run.
  destruct (find_control "value" (controls s)) as [c|] eqn:Hfind; simpl.
  - rewrite find_control_assign_value, find_control_reset, Hfind. simpl.
    split; [apply clear_after_reset_twice | by intros []].
  - rewrite find_control_reset, Hfind. simpl. split; [|by intros []].
    rewrite <- list_fmap_compose. apply list_fmap_ext. intros ? c' _. simpl.
    apply reset_control_twice.
Qed.

(** *** Values that cannot be converted to a string *)

Lemma submit_try_stringless_url id r body e s :
  resp_ok r = true -> resp_json r = JsonOk body ->
  prop body "status" = JStr "success" ->
  to_string (prop body "download_url") = Threw e ->
  submit_try id (Resolved r) s =
  (Threw e,
   set_hidden ResultDiv false
     (set_hidden LoadingDiv true
        (set_timers (delete id (timers s)) (next_timer s) s))).
Proof.
  intros Hok Hjson Hstatus Hurl.
  unfold submit_try, assign_download_href.
  unfold bind, fetch_settle, response_json, clearInterval, evaluate, effect, ret.
  simpl. rewrite Hjson, Hok. simpl.
  destruct body; try discriminate Hstatus.
  unfold get_prop, ret. rewrite Hstatus. simpl in *. by rewrite Hurl.
Qed.

(** X15.  When a valid submission is answered with an ok response of
    status 'success' whose [download_url] cannot be converted to a string,
    the assignment to [href] throws after the result panel has been
    revealed.  The download link keeps its old target, and the [catch]
    block shows the handler's alert with the message of the conversion
    error, hides the loading panel and shows the form again: the form and
    the result panel end up shown together, and the interval is cleared. *)
Theorem submit_success_unconvertible_url s ticks r body e :
  Forall (filled (form_entries (controls s))) required_fields ->
  resp_ok r = true ->
  resp_json r = JsonOk body ->
  prop body "status" = JStr "success" ->
  to_string (prop body "download_url") = Threw e ->
  let s' := exec (submit ticks (Resolved r)) s in
  download_href s' = download_href s /\
  result_hidden s' = false /\ form_hidden s' = false /\ loading_hidden s' = true /\
  alerts s' = alerts s ++ [generation_alert (err_message e)] /\
  console s' = console s ++ [[LogText "Generation error:"; LogError e]] /\
  timers s' !! next_timer s = None.
Proof.
  intros Hall Hok Hjson Hstatus Hurl s'. subst s'.
  rewrite (submit_present_exec s ticks _ Hall).
  unfold submit_settled, try_catch, exec at 1 2 3 4 5 6 7.
  rewrite (submit_try_stringless_url _ r body e _ Hok Hjson Hstatus Hurl).
  match goal with |- context [snd (submit_catch ?i ?x ?w)] =>
    change (snd (submit_catch i x w)) with (exec (submit_catch i x) w) end.
  rewrite submit_catch_exec. simpl.
  destruct (in_flight_page s ticks Hall) as (_&_&_&Hhref&_&Halert&Hlog&_).
  rewrite Hhref, Halert, Hlog. repeat split.
  by rewrite !lookup_delete_eq.
Qed.

(** X16.  With a non-empty date selected on a page that has the value
    input, a truthy [value] that cannot be converted to a string is not
    stored: the assignment throws, no control changes, no alert is shown,
    and the conversion error is logged after 'Error:'. *)
Theorem date_change_unconvertible_value s r data e selectedDate :
  value_of "date" s = Some selectedDate ->
  selectedDate <> "" ->
  is_Some (value_of "value" s) ->
  resp_json r = JsonOk data ->
  truthy (prop data "value") = true ->
  to_string (prop data "value") = Threw e ->
  let s' := exec (date_change (Resolved r)) s in
  controls s' = controls s /\
  alerts s' = alerts s /\
  console s' = console s ++ [[LogText "Error:"; LogError e]].
Proof.
  intros Hdate Hne [old Hvalue] Hjson Htruthy Hconv s'. subst s'.
  rewrite (date_change_selected s _ selectedDate Hdate Hne).
  unfold value_of in Hvalue. apply fmap_Some in Hvalue as (c & Hfind & _).
  run_date_change. rewrite Hjson.
  destruct data as [| |b|n|str|items|fields]; simpl in *; try done.
  rewrite Htruthy. simpl. rewrite Hfind, Hconv. by simpl.
Qed.

(** *** The end of the [DOMContentLoaded] listener *)

Lemma find_control_assign_other id id' v cs :
  id <> id' -> find_control id (assign_value id' v cs) = find_control id cs.
Proof.
  intros Hne. induction cs as [|c cs IH]; simpl; [done|].
  destruct (String.eqb_spec (ctl_id c) id') as [Heq|Hneq]; simpl.
  - destruct (String.eqb_spec (ctl_id c) id); [congruence | done].
  - by rewrite IH.
Qed.

(** X14.  When the page loads and has the date input, the script writes
    today's date into it and the dispatched change event asks the server
    for that date: one request to /api/get-month-value with body
    [{date: today}] is sent, the date input holds [today] afterwards
    whatever the answer, and no alert is shown. *)
Theorem on_load_requests_month_value s today net :
  is_Some (value_of "date" s) ->
  today <> "" ->
  let s' := exec (on_load today net) s in
  requests s' =
    requests s ++ [post "/api/get-month-value" (JObj [("date", JStr today)])] /\
  value_of "date" s' = Some today /\
  alerts s' = alerts s.
Proof.
  intros [old Hdate] Hne s'. subst s'. unfold value_of in Hdate.
  apply fmap_Some in Hdate as (c & Hfind & _).
  set (s0 := set_controls (assign_value "date" today (controls s)) s).
  assert (Hrun : exec (on_load today net) s = exec (date_change net) s0).
  { unfold on_load, exec, bind at 1, set_input_value. by rewrite Hfind. }
  assert (Hdate0 : value_of "date" s0 = Some today).
  { unfold value_of. subst s0. simpl. by rewrite find_control_assign_value, Hfind. }
  rewrite Hrun, (date_change_selected s0 net today Hdate0 Hne).
  destruct (date_change_try_catch_frame s0 net today)
    as (Hreq & Halert & _ & _ & _ & _ & _ & Hctl).
  split; [exact Hreq|]. split; [|exact Halert].
  unfold value_of in *. destruct Hctl as [-> | [v ->]]; [done|].
  by rewrite find_control_assign_other.
Qed.

End Coverage.

(** ** The further properties at work on the concrete page *)

Lemma submit_progress_text_witness :
  timers (in_flight 11 filled_page) !! 1 = Some 8 /\
  progress_text (exec (submit 3 network_down) filled_page) =
    "✨ Creating engaging starter activity..." /\
  progress_text (exec (submit 11 success_net) filled_page) =
    "⏳ Finalizing your package...".
Proof.
  split; [|split].
  - apply (submit_progress_text filled_page 11 success_net). all_filled.
  - apply (submit_progress_text filled_page 3 network_down). all_filled.
  - apply (submit_progress_text filled_page 11 success_net). all_filled.
Defined.

Lemma submit_leaks_no_interval_witness :
  timers (exec (submit 5 (server_error "busy")) filled_page) = ∅.
Proof.
  apply (submit_leaks_no_interval filled_page 5 (server_error "busy")). reflexivity.
Defined.

Lemma submit_shows_loading_state_witness :
  form_hidden (in_flight 2 filled_page) = true /\
  loading_hidden (in_flight 2 filled_page) = false /\
  result_hidden (in_flight 2 filled_page) = true /\
  requests (in_flight 2 filled_page) =
    [post "/api/generate-lesson-plan" (payload (form_entries filled_controls))] /\
  alerts (in_flight 2 filled_page) = [] /\
  ui_calls (in_flight 2 filled_page) = [PreventDefault].
Proof.
  apply (submit_shows_loading_state filled_page 2). all_filled.
Defined.

Lemma submit_failure_logs_error_witness :
  result_hidden (exec (submit 1 network_down) filled_page) = true /\
  download_href (exec (submit 1 network_down) filled_page) = "#" /\
  exists e,
    console (exec (submit 1 network_down) filled_page) =
      [[LogText "Generation error:"; LogError e]] /\
    alerts (exec (submit 1 network_down) filled_page) =
      [generation_alert (err_message e)] /\
    ui_calls (exec (submit 1 network_down) filled_page) = [PreventDefault].
Proof.
  apply (submit_failure_logs_error filled_page 1 network_down); [all_filled | exact I].
Defined.

Lemma submit_success_keeps_form_hidden_witness :
  form_hidden (exec (submit 2 success_net) filled_page) = true /\
  console (exec (submit 2 success_net) filled_page) = [] /\
  controls (exec (submit 2 success_net) filled_page) = filled_controls /\
  ui_calls (exec (submit 2 success_net) filled_page) =
    [PreventDefault; ScrollIntoView ResultDiv].
Proof.
  apply (submit_success_keeps_form_hidden filled_page 2
           {| resp_ok := true; resp_json := JsonOk success_body |} success_body
           "/download/plan.zip");
    [all_filled | reflexivity | reflexivity | reflexivity | reflexivity].
Defined.

Lemma submit_retry_after_failure_witness :
  result_hidden
    (exec (submit 0 success_net) (exec (submit 4 network_down) filled_page)) = false /\
  download_href
    (exec (submit 0 success_net) (exec (submit 4 network_down) filled_page)) =
    "/download/plan.zip" /\
  exists message,
    alerts
      (exec (submit 0 success_net) (exec (submit 4 network_down) filled_page)) =
      [generation_alert message].
Proof.
  destruct (submit_retry_after_failure filled_page 4 network_down 0
              {| resp_ok := true; resp_json := JsonOk success_body |} success_body
              "/download/plan.zip")
    as (_ & _ & _ & Hres & Hhref & Halert);
    [all_filled | exact I | reflexivity | reflexivity | reflexivity | reflexivity |].
  split; [exact Hres|]. split; [exact Hhref | exact Halert].
Defined.

Lemma date_change_touches_only_value_witness :
  requests (exec (date_change network_down) filled_page) =
    [post "/api/get-month-value" (JObj [("date", JStr "2025-03-10")])].
Proof.
  apply (proj1 (date_change_touches_only_value filled_page network_down) "2025-03-10");
    [reflexivity | discriminate].
Defined.

Lemma date_change_unreadable_body_witness :
  console (exec (date_change (Resolved (month_value JNull))) filled_page) =
    [[LogText "Error:"; LogError (null_access "read" "value")]] /\
  controls (exec (date_change (Resolved (month_value JNull))) filled_page) =
    filled_controls.
Proof.
  destruct (proj2 (date_change_unreadable_body filled_page (month_value JNull) "2025-03-10"
                     eq_refl ltac:(discriminate)) eq_refl) as [Hctl Hlog].
  split; [exact Hlog | exact Hctl].
Defined.

Lemma date_change_without_value_input_witness :
  value_of "value" valueless_page = None /\
  controls (exec (date_change (Resolved (month_value (JObj [("value", JStr "Respect")]))))
              valueless_page) = controls valueless_page /\
  alerts (exec (date_change (Resolved (month_value (JObj [("value", JStr "Respect")]))))
            valueless_page) = [] /\
  console (exec (date_change (Resolved (month_value (JObj [("value", JStr "Respect")]))))
             valueless_page) =
    [[LogText "Error:"; LogError (null_access "set" "value")]].
Proof.
  split; [reflexivity|].
  apply (date_change_without_value_input valueless_page
           (month_value (JObj [("value", JStr "Respect")]))
           (JObj [("value", JStr "Respect")]) "2025-03-10");
    [reflexivity | discriminate | reflexivity | reflexivity | reflexivity].
Defined.

Lemma success_then_new_plan_shows_form_witness :
  form_hidden (exec new_plan_click (exec (submit 2 success_net) filled_page)) = false /\
  loading_hidden (exec new_plan_click (exec (submit 2 success_net) filled_page)) = true /\
  result_hidden (exec new_plan_click (exec (submit 2 success_net) filled_page)) = true /\
  requests (exec new_plan_click (exec (submit 2 success_net) filled_page)) =
    requests (exec (submit 2 success_net) filled_page) /\
  alerts (exec new_plan_click (exec (submit 2 success_net) filled_page)) = [].
Proof.
  apply (success_then_new_plan_shows_form filled_page 2
           {| resp_ok := true; resp_json := JsonOk success_body |} success_body
           "/download/plan.zip");
    [all_filled | reflexivity | reflexivity | reflexivity | reflexivity].
Defined.

Lemma new_plan_click_without_value_input_witness :
  fst (new_plan_click valueless_page) = Threw (null_access "set" "value") /\
  result_hidden (exec new_plan_click valueless_page) = true /\
  form_hidden (exec new_plan_click valueless_page) = false /\
  controls (exec new_plan_click valueless_page) =
    reset_control <$> controls valueless_page /\
  ui_calls (exec new_plan_click valueless_page) = [].
Proof.
  apply (new_plan_click_without_value_input valueless_page). reflexivity.
Defined.

Lemma on_load_requests_month_value_witness :
  requests (exec (on_load "2025-04-01" network_down) dateless_page) =
    [post "/api/get-month-value" (JObj [("date", JStr "2025-04-01")])] /\
  value_of "date" (exec (on_load "2025-04-01" network_down) dateless_page) =
    Some "2025-04-01" /\
  alerts (exec (on_load "2025-04-01" network_down) dateless_page) = [].
Proof.
  apply (on_load_requests_month_value dateless_page "2025-04-01" network_down);
    [by eexists | discriminate].
Defined.

Lemma submit_success_unconvertible_url_witness :
  to_string (number := Z) stringless = Threw unconvertible /\
  download_href (exec (submit 2 stringless_url_net) filled_page) = "#" /\
  result_hidden (exec (submit 2 stringless_url_net) filled_page) = false /\
  form_hidden (exec (submit 2 stringless_url_net) filled_page) = false /\
  loading_hidden (exec (submit 2 stringless_url_net) filled_page) = true /\
  alerts (exec (submit 2 stringless_url_net) filled_page) =
    [generation_alert "Cannot convert object to primitive value"] /\
  console (exec (submit 2 stringless_url_net) filled_page) =
    [[LogText "Generation error:"; LogError unconvertible]] /\
  timers (exec (submit 2 stringless_url_net) filled_page) !! 1 = None.
Proof.
  split; [reflexivity|].
  apply (submit_success_unconvertible_url filled_page 2
           {| resp_ok := true;
              resp_json := JsonOk (JObj [("status", JStr "success");
                                         ("download_url", stringless)]) |}
           (JObj [("status", JStr "success"); ("download_url", stringless)])
           unconvertible);
    [all_filled | reflexivity | reflexivity | reflexivity | reflexivity].
Defined.

Lemma date_change_unconvertible_value_witness :
  controls (exec (date_change (Resolved (month_value (JObj [("value", JArr [stringless])]))))
              filled_page) = filled_controls /\
  alerts (exec (date_change (Resolved (month_value (JObj [("value", JArr [stringless])]))))
            filled_page) = [] /\
  console (exec (date_change (Resolved (month_value (JObj [("value", JArr [stringless])]))))
             filled_page) = [[LogText "Error:"; LogError unconvertible]].
Proof.
  apply (date_change_unconvertible_value filled_page
           (month_value (JObj [("value", JArr [stringless])]))
           (JObj [("value", JArr [stringless])]) unconvertible "2025-03-10");
    [reflexivity | discriminate | by eexists | reflexivity | reflexivity | reflexivity].
Defined.
